(** * Railway journeys dashboard: the filter-and-aggregate layer of [app.py]

  [app.py] is a straight-line pandas script.  It loads a table of railway
  journeys, narrows it with the side-bar selections, and derives five KPI
  figures and one table per tab.  This file embeds that query layer:

  - a data frame is a list of rows, a column is a projection of the row
    record, a missing cell (NaN / NaT) is [None], a missing price the
    float NaN;
  - the pandas operations the script calls ([isin], boolean indexing,
    [sum], [map], [value_counts], [head], [groupby(..).size()], [reindex],
    [pivot_table], [fillna]) are functions on such lists, written in
    [Module Pandas];
  - the script itself is [Module App], one definition per top-level name
    of [app.py], in the order of the script, followed by the side-bar
    option lists, the metric texts and the bar series of the revenue
    chart.

  Prices are machine numbers.  [read_csv] gives the [Price] column the
  dtype int64 or float64; an int64 sum wraps around at 64 bits, and a
  float64 sum is what numpy and pandas compute, a parameter of the
  development ([Pandas.Numpy]): nothing is proved of a float64 sum that
  depends on the order or the rounding of its additions.  Dates are day
  numbers; [pd.to_datetime] of a picked date is the same day at midnight,
  and the column holds dates, so both sides of a date comparison are day
  numbers. *)

From Stdlib Require Import List String Ascii Bool Arith ZArith Lia.
From Stdlib Require Import Sorted Permutation RelationClasses OrdersEx.
From Stdlib Require DecimalString DecimalN.
From Stdlib Require Import NArith.
From Stdlib Require Import Floats.
Import ListNotations.

Set Implicit Arguments.

Local Open Scope string_scope.
Local Open Scope nat_scope.

(** ** Python results *)

Module Py.

(** The exceptions the script can raise on a table: [date_range[1]] on a
    one-element selection, and [int(x)] on a float that is NaN or
    infinite. *)
Inductive exn : Type :=
| IndexError
| ValueError
| OverflowError.

Inductive result (A : Type) : Type :=
| Ok (a : A)
| Raise (e : exn).

Arguments Ok {A} a.
Arguments Raise {A} e.

Definition bind {A B} (m : result A) (k : A -> result B) : result B :=
  match m with
  | Ok a => k a
  | Raise e => Raise e
  end.

(** [l[i]] for a non-negative literal index. *)
Definition getitem {A} (l : list A) (i : nat) : result A :=
  match nth_error l i with
  | Some a => Ok a
  | None => Raise IndexError
  end.

(** Truth value of a sequence: empty is falsy. *)
Definition truthy {A} (l : list A) : bool :=
  match l with
  | [] => false
  | _ :: _ => true
  end.

(** [f"{n:,}"] for an integer [n]: the decimal digits, a comma before
    every group of three digits counted from the right, the sign in
    front.  [group3] works on the digits with the units first. *)
Fixpoint group3 (units_first : list ascii) : list ascii :=
  match units_first with
  | a :: b :: c :: rest =>
      match rest with
      | [] => [a; b; c]
      | _ :: _ => a :: b :: c :: ","%char :: group3 rest
      end
  | _ => units_first
  end.

Definition decimal (n : N) : list ascii :=
  list_ascii_of_string (DecimalString.NilEmpty.string_of_uint (N.to_uint n)).

Definition format_comma (z : Z) : string :=
  let body := string_of_list_ascii (List.rev (group3 (List.rev (decimal (Z.abs_N z))))) in
  if (z <? 0)%Z then String "-" body else body.

(** [int(x)] for a float [x]: the integer part, rounding toward zero.
    A finite float is [m * 2 ^ e], with its sign apart.  [int] raises
    [ValueError] on NaN and [OverflowError] on an infinity. *)
Definition int_float (x : float) : result Z :=
  match Prim2SF x with
  | S754_zero _ => Ok 0%Z
  | S754_finite s m e =>
      let mag := if (0 <=? e)%Z
                 then (Z.pos m * 2 ^ e)%Z
                 else (Z.pos m / 2 ^ (- e))%Z in
      Ok (if s then (- mag)%Z else mag)
  | S754_infinity _ => Raise OverflowError
  | S754_nan => Raise ValueError
  end.

End Py.

Notation "x <- m ;; k" := (Py.bind m (fun x => k))
(at level 61, m at next level, right associativity).

(** ** The table *)

(** A cell of the [Price] column.  [read_csv] gives the column the dtype
    int64 when every field is an integer, and float64 otherwise; a
    missing price is the float NaN, so that a column with a missing price
    is a float64 column.  The column of a table has one dtype: its cells
    are all [Int64], each within the 64 bits, or all [Float64], and so
    are the cells of every part of the table. *)
Inductive price : Type :=
| Int64 (z : Z)
| Float64 (x : float).

(** One row of [railway_cleaned.csv], with the columns the script reads.
    Every cell read from the CSV may be missing, except the two flags,
    which the script sums and compares with [True]; a missing price is
    the cell [Float64 nan].  [Month] is taken as the month number; the
    by-month table is only looked at on the empty table below, where the
    type of its labels plays no part. *)
Record Row : Type := mkRow {
  Date_of_Journey : option Z;
  Hour_AM_PM : option string;
  Day_of_Week : option string;
  Month : option Z;
  Departure_Station : option string;
  Arrival_Destination : option string;
  Route : option string;
  Price : price;
  Is_Delayed : bool;
  Is_Cancelled : bool;
  Reason_for_Delay : option string;
  Refund_Request : option string;
  Ticket_Type : option string;
  Ticket_Class : option string
}.

Definition DataFrame : Type := list Row.

(** The side-bar selections: what [st.sidebar.date_input] and the four
    [st.sidebar.multiselect] calls return. *)
Record Selection : Type := mkSelection {
  date_range : list Z;
  selected_hours : list string;
  selected_days : list string;
  selected_departures : list string;
  selected_arrivals : list string
}.

(** [l1] is [l2] with some elements dropped, order kept. *)
Inductive Subseq {A : Type} : list A -> list A -> Prop :=
| Subseq_nil : Subseq [] []
| Subseq_skip x l1 l2 : Subseq l1 l2 -> Subseq l1 (x :: l2)
| Subseq_keep x l1 l2 : Subseq l1 l2 -> Subseq (x :: l1) (x :: l2).

(** ** Orders on index labels *)

(** pandas sorts group keys with the order of their Python type: strings
    by code point (byte-wise on UTF-8), integers numerically, tuples
    lexicographically. *)
Class Compare (K : Type) : Type := cmp : K -> K -> comparison.

#[export] Instance Compare_string : Compare string := String_as_OT.compare.

#[export] Instance Compare_Z : Compare Z := Z.compare.

#[export] Instance Compare_pair {A B} `{Compare A} `{Compare B} : Compare (A * B) :=
  fun x y =>
    match cmp (fst x) (fst y) with
    | Eq => cmp (snd x) (snd y)
    | c => c
    end.

Definition eqk {K} `{Compare K} (a b : K) : bool :=
  match cmp a b with
  | Eq => true
  | _ => false
  end.

(** ** The pandas operations used by the script *)

Module Pandas.

(** [x in l] for strings. *)
Definition contains (x : string) (l : list string) : bool :=
  existsb (String.eqb x) l.

(** [Series.isin(values)], cell by cell: a missing cell is in no list. *)
Definition isin (values : list string) (cell : option string) : bool :=
  match cell with
  | Some s => contains s values
  | None => false
  end.

(** [Series >= t] and [Series <= t], cell by cell: a comparison with
    NaT is false. *)
Definition ge_cell (cell : option Z) (t : Z) : bool :=
  match cell with
  | Some d => (t <=? d)%Z
  | None => false
  end.

Definition le_cell (cell : option Z) (t : Z) : bool :=
  match cell with
  | Some d => (d <=? t)%Z
  | None => false
  end.

(** [Series.dropna()]. *)
Fixpoint dropna {A} (col : list (option A)) : list A :=
  match col with
  | [] => []
  | Some a :: rest => a :: dropna rest
  | None :: rest => dropna rest
  end.

(** [Series.sum()]: missing cells are skipped, the empty sum is 0. *)
Definition sum_nat (col : list (option nat)) : nat :=
  fold_right Nat.add 0 (dropna col).

(** [Series.sum()] of a boolean column: [True] counts 1. *)
Definition sum_bool (col : list bool) : nat :=
  fold_right (fun b n => Nat.b2n b + n) 0 col.

(** [Series.map(d)] for a dict [d] with string keys: a cell whose value is
    not a key of [d], and a missing cell, become NaN. *)
Fixpoint dict_get {V} (d : list (string * V)) (k : string) : option V :=
  match d with
  | [] => None
  | (k', v) :: rest => if String.eqb k k' then Some v else dict_get rest k
  end.

Definition map_dict {V} (d : list (string * V)) (col : list (option string))
  : list (option V) :=
  map (fun cell => match cell with
                   | Some s => dict_get d s
                   | None => None
                   end) col.

(** *** Numbers *)

(** A numpy scalar of one of the two dtypes of a price column. *)
Inductive number : Type :=
| VInt (z : Z)
| VFloat (x : float).

(** [pd.isna(x)] for a scalar. *)
Definition isna (x : number) : bool :=
  match x with
  | VInt _ => false
  | VFloat f => PrimFloat.is_nan f
  end.

(** int64 arithmetic wraps around at 64 bits, without an error. *)
Definition wrap64 (z : Z) : Z := ((z + 2 ^ 63) mod 2 ^ 64 - 2 ^ 63)%Z.

Definition add64 (a b : Z) : Z := wrap64 (a + b).

Definition sum64 (zs : list Z) : Z := fold_left add64 zs 0%Z.

(** The two float64 summations the script reaches: [ndarray.sum] of
    numpy, under [Series.sum], and the [group_sum] kernel of pandas,
    under [pivot_table(aggfunc="sum")], which skips the NaN cells of a
    group.  The order in which they add, and whether they compensate the
    rounding, differ between versions of the two libraries: they are
    parameters of what follows. *)
Class Numpy : Type := {
  ndarray_sum : list float -> float;
  group_sum_float : list float -> float
}.

(** An int64 as a float64 ([astype("float64")]): the nearest float, ties
    to even. *)
Definition of_int (z : Z) : float :=
  SF2Prim (binary_normalize prec emax z 0 false).

(** The values of a column whose dtype is int64; [None] for a float64
    column. *)
Fixpoint int64_values (col : list price) : option (list Z) :=
  match col with
  | [] => Some []
  | Int64 z :: rest => option_map (cons z) (int64_values rest)
  | Float64 _ :: _ => None
  end.

(** A cell of a float64 column. *)
Definition float_cell (c : price) : float :=
  match c with
  | Int64 z => of_int z
  | Float64 x => x
  end.

(** What [nansum] adds in place of a cell: 0.0 for NaN. *)
Definition nan_to_zero (x : float) : float :=
  if PrimFloat.is_nan x then 0%float else x.

(** [Series.sum()] of the price column.  An int64 column is added at 64
    bits.  On a float64 column [nansum] puts 0.0 in place of every NaN
    and calls [ndarray.sum].  A column without a cell sums to 0 in either
    dtype; it is given here as the integer. *)
Definition sum_price {np : Numpy} (col : list price) : number :=
  match int64_values col with
  | Some zs => VInt (sum64 zs)
  | None => VFloat (ndarray_sum (map nan_to_zero (map float_cell col)))
  end.

(** [int(x)] for a numpy scalar. *)
Definition int (x : number) : Py.result Z :=
  match x with
  | VInt z => Py.Ok z
  | VFloat f => Py.int_float f
  end.

(** A series indexed by labels: (label, value) pairs in index order. *)
Definition Series (K V : Type) : Type := list (K * V).

(** Value at a label of the index. *)
Fixpoint at_label {K V} `{Compare K} (s : Series K V) (k : K) : option V :=
  match s with
  | [] => None
  | (k', v) :: rest => if eqk k k' then Some v else at_label rest k
  end.

(** *** [value_counts] *)

(** Counting pass of [value_counts]: one entry per distinct value, in
    order of first appearance. *)
Fixpoint bump {K} `{Compare K} (k : K) (acc : Series K nat) : Series K nat :=
  match acc with
  | [] => [(k, 1)]
  | (k', n) :: rest =>
      if eqk k k' then (k', S n) :: rest else (k', n) :: bump k rest
  end.

Definition tally {K} `{Compare K} (keys : list K) : Series K nat :=
  fold_left (fun acc k => bump k acc) keys [].

(** Sorting pass of [value_counts]: descending by count.  pandas leaves
    the order of entries with equal counts to the sort it calls; here
    they keep their order of first appearance.  No property below depends
    on the order of ties. *)
Fixpoint insert_desc {K} (x : K * nat) (l : Series K nat) : Series K nat :=
  match l with
  | [] => [x]
  | y :: rest =>
      if snd y <=? snd x then x :: y :: rest else y :: insert_desc x rest
  end.

Definition sort_desc {K} (l : Series K nat) : Series K nat :=
  fold_right insert_desc [] l.

(** [Series.value_counts()]: missing cells are dropped. *)
Definition value_counts {K} `{Compare K} (col : list (option K)) : Series K nat :=
  sort_desc (tally (dropna col)).

(** [Series.head(n)]. *)
Definition head {A} (n : nat) (s : list A) : list A := firstn n s.

(** *** [groupby] *)

(** The groups of a [groupby] are kept sorted by key.  [upsert k f acc]
    folds one more row with key [k] into the groups [acc]: [f None] opens
    a group, [f (Some v)] extends one. *)
Fixpoint upsert {K V} `{Compare K} (k : K) (f : option V -> V) (acc : Series K V)
  : Series K V :=
  match acc with
  | [] => [(k, f None)]
  | (k', v) :: rest =>
      match cmp k k' with
      | Lt => (k, f None) :: (k', v) :: rest
      | Eq => (k', f (Some v)) :: rest
      | Gt => (k', v) :: upsert k f rest
      end
  end.

(** [groupby(keys).agg(..)] over rows already stripped of missing keys:
    [step] folds the cells of one group, in row order. *)
Definition groupby_agg {K X V} `{Compare K} (step : option V -> X -> V)
    (rows : list (K * X)) : Series K V :=
  fold_left (fun acc kx => upsert (fst kx) (fun o => step o (snd kx)) acc) rows [].

Definition count_step {X} (o : option nat) (_ : X) : nat :=
  match o with
  | Some n => S n
  | None => 1
  end.

(** Gathering the cells of a group, in row order. *)
Definition collect {X} (o : option (list X)) (x : X) : list X :=
  match o with
  | Some l => (l ++ [x])%list
  | None => [x]
  end.

(** [sum] over the price cells of one group: added at 64 bits when the
    column is int64, by the [group_sum] kernel when it is float64. *)
Definition group_sum {np : Numpy} (int_column : bool) (cells : list price)
  : number :=
  match int_column, int64_values cells with
  | true, Some zs => VInt (sum64 zs)
  | _, _ => VFloat (group_sum_float (map float_cell cells))
  end.

(** [df.groupby(col).size()]: rows with a missing key are dropped
    (dropna=True), groups come sorted by key (sort=True). *)
Definition groupby_size {K} `{Compare K} (col : list (option K)) : Series K nat :=
  groupby_agg count_step (map (fun k => (k, tt)) (dropna col)).

(** Sorted distinct values of a level. *)
Definition level_values {K} `{Compare K} (l : list K) : list K :=
  map fst (groupby_agg count_step (map (fun k => (k, tt)) l)).

(** *** [reindex] *)

(** [Series.reindex(labels)]: the value at each label of [labels], in that
    order; NaN where the series has no such label. *)
Definition reindex {K V} `{Compare K} (labels : list K) (s : Series K V)
  : Series K (option V) :=
  map (fun l => (l, at_label s l)) labels.

(** *** [pivot_table] *)

(** A two-dimensional table: row labels, column labels, one list of cells
    per row label. *)
Record Table (V : Type) : Type := mkTable {
  index : list string;
  columns : list string;
  cells : list (list V)
}.

(** Rows that enter the grouping: both keys present. *)
Fixpoint keyed_rows {X} (rows : list (option string * option string * X))
  : list ((string * string) * X) :=
  match rows with
  | [] => []
  | (Some i, Some c, x) :: rest => ((i, c), x) :: keyed_rows rest
  | _ :: rest => keyed_rows rest
  end.

(** A hole in a grid of cells. *)
Definition has_hole {V} (grid : list (list (option V))) : bool :=
  existsb (existsb (fun cell => match cell with
                                | Some _ => false
                                | None => true
                                end)) grid.

(** A cell of a table that takes NaN: an int64 becomes a float64. *)
Definition promote (x : number) : number :=
  match x with
  | VInt z => VFloat (of_int z)
  | VFloat f => VFloat f
  end.

(** [df.pivot_table(index=.., columns=.., values=.., aggfunc="sum")] on
    the price column, in its two steps.

    First the rows with both keys are grouped by the pair of keys and
    each group is summed, in the dtype of the whole column;
    [dropna(how="all")] then drops the groups whose sum is NaN. *)
Definition agg_sum {np : Numpy}
    (rows : list (option string * option string * price))
  : Series (string * string) number :=
  let int_column := match int64_values (map snd rows) with
                    | Some _ => true
                    | None => false
                    end in
  let groups := groupby_agg collect (keyed_rows rows) in
  filter (fun g => negb (isna (snd g)))
    (map (fun g => (fst g, group_sum int_column (snd g))) groups).

(** Then the second key is unstacked into columns, row and column labels
    sorted, leaving a hole where a pair of keys has no group: when there
    is a hole the cells become float64 and the hole is NaN, written
    [None] here. *)
Definition unstack (agged : Series (string * string) number)
  : Table (option number) :=
  let idx := level_values (map (fun g => fst (fst g)) agged) in
  let cols := level_values (map (fun g => snd (fst g)) agged) in
  let grid := map (fun i => map (fun c => at_label agged (i, c)) cols) idx in
  mkTable idx cols
    (if has_hole grid then map (map (option_map promote)) grid else grid).

(** The last step of [pivot_table], [dropna(how="all", axis=1)], removes
    nothing: every column label comes from a group that was kept. *)
Definition pivot_table_sum {np : Numpy}
    (rows : list (option string * option string * price))
  : Table (option number) :=
  unstack (agg_sum rows).

(** [DataFrame.fillna(v)]: the NaN cells of the table are its holes. *)
Definition fillna {V} (v : V) (t : Table (option V)) : Table V :=
  mkTable (index t) (columns t)
    (map (map (fun cell => match cell with
                           | Some x => x
                           | None => v
                           end)) (cells t)).

(** [DataFrame.loc[i, c]]: the cell at a row label and a column label. *)
Fixpoint nth_label (labels : list string) (l : string) : option nat :=
  match labels with
  | [] => None
  | l' :: rest =>
      if String.eqb l l' then Some 0 else option_map S (nth_label rest l)
  end.


(** *** Used by the side bar and the revenue chart *)

(** [Series.min()] and [Series.max()] of a date column: missing cells are
    skipped; NaT when no cell is left. *)
Definition col_min (col : list (option Z)) : option Z :=
  match dropna col with
  | [] => None
  | d :: rest => Some (fold_left Z.min rest d)
  end.

Definition col_max (col : list (option Z)) : option Z :=
  match dropna col with
  | [] => None
  | d :: rest => Some (fold_left Z.max rest d)
  end.

(** [Series.unique()]: the distinct values, in order of first appearance. *)
Definition unique {K} `{Compare K} (l : list K) : list K :=
  fold_left (fun seen x => if existsb (eqk x) seen then seen else seen ++ [x])%list
            l [].

(** Python's [sorted]: ascending, equal elements in their input order. *)
Fixpoint insert_asc {K} `{Compare K} (x : K) (l : list K) : list K :=
  match l with
  | [] => [x]
  | y :: rest =>
      match cmp x y with
      | Gt => y :: insert_asc x rest
      | _ => x :: y :: rest
      end
  end.

Definition sorted {K} `{Compare K} (l : list K) : list K :=
  fold_right insert_asc [] l.

(** All the cells of a list, when none is missing. *)
Fixpoint sequence {A} (l : list (option A)) : option (list A) :=
  match l with
  | [] => Some []
  | Some a :: rest => option_map (cons a) (sequence rest)
  | None :: rest => None
  end.

(** [DataFrame[c]]: the cells of the column labelled [c], one per row
    label; [None] stands for the [KeyError] of an unknown label. *)
Definition getcol {V} (t : Table V) (c : string) : option (list V) :=
  match nth_label (columns t) c with
  | Some j => sequence (map (fun row => nth_error row j) (cells t))
  | None => None
  end.

End Pandas.

(** ** The script *)

Module App.

Import Pandas.

(** Lines 58-62: [if date_range: filtered_df = filtered_df[(..>=..) & (..<=..)]].
    Both subscripts are evaluated before the mask is applied. *)
Definition filter_date (date_range : list Z) (df : DataFrame)
  : Py.result DataFrame :=
  if Py.truthy date_range then
    d0 <- Py.getitem date_range 0 ;;
    d1 <- Py.getitem date_range 1 ;;
    Py.Ok (filter (fun r => ge_cell (Date_of_Journey r) d0
                            && le_cell (Date_of_Journey r) d1) df)
  else Py.Ok df.

(** Lines 64-74, one dimension:
    [if "All" not in selected: filtered_df = filtered_df[col.isin(selected)]]. *)
Definition filter_isin (col : Row -> option string) (selected : list string)
    (df : DataFrame) : DataFrame :=
  if negb (contains "All" selected)
  then filter (fun r => isin selected (col r)) df
  else df.

(** Lines 56-74. *)
Definition filtered_df (df : DataFrame) (c : Selection) : Py.result DataFrame :=
  df1 <- filter_date (date_range c) df ;;
  let df2 := filter_isin Hour_AM_PM (selected_hours c) df1 in
  let df3 := filter_isin Day_of_Week (selected_days c) df2 in
  let df4 := filter_isin Departure_Station (selected_departures c) df3 in
  let df5 := filter_isin Arrival_Destination (selected_arrivals c) df4 in
  Py.Ok df5.

(** Lines 79-84.  From here on [filtered_df] is the filtered table. *)
Definition total_journeys (filtered_df : DataFrame) : nat :=
  List.length filtered_df.

Definition total_revenue {np : Numpy} (filtered_df : DataFrame) : number :=
  sum_price (map Price filtered_df).

Definition total_delayed (filtered_df : DataFrame) : nat :=
  sum_bool (map Is_Delayed filtered_df).

Definition total_cancelled (filtered_df : DataFrame) : nat :=
  sum_bool (map Is_Cancelled filtered_df).

(** Line 83: [.map({"Yes": 1, "No": 0})].  The script writes the mapped
    column back into the table; nothing after line 84 reads it. *)
Definition refund_flags (filtered_df : DataFrame) : list (option nat) :=
  map_dict [("Yes", 1); ("No", 0)] (map Refund_Request filtered_df).

Definition total_refund (filtered_df : DataFrame) : nat :=
  sum_nat (refund_flags filtered_df).

(** Line 90: [int(total_revenue)]. *)
Definition revenue_figure {np : Numpy} (filtered_df : DataFrame) : Py.result Z :=
  int (total_revenue filtered_df).

(** Lines 88-92: the five figures handed to [st.metric]; the revenue goes
    through [int].  Where [int] raises, on a float64 sum that is NaN or
    infinite, the script stops at line 90 and shows no figure: the record
    holds 0 there, and no property below speaks of that 0. *)
Record KPIs : Type := mkKPIs {
  totalJourneys : nat;
  totalRevenue : Z;
  totalDelayed : nat;
  totalCancelled : nat;
  totalRefundRequests : nat
}.

Definition kpis {np : Numpy} (filtered_df : DataFrame) : KPIs :=
  mkKPIs (total_journeys filtered_df)
         (match revenue_figure filtered_df with
          | Py.Ok z => z
          | Py.Raise _ => 0%Z
          end)
         (total_delayed filtered_df)
         (total_cancelled filtered_df)
         (total_refund filtered_df).

(** Line 110. *)
Definition popular_routes (filtered_df : DataFrame) : Series string nat :=
  head 10 (value_counts (map Route filtered_df)).

(** Line 129. *)
Definition hour_counts (filtered_df : DataFrame) : Series string nat :=
  groupby_size (map Hour_AM_PM filtered_df).

(** Lines 137-138. *)
Definition weekdays : list string :=
  ["Sunday"; "Monday"; "Tuesday"; "Wednesday"; "Thursday"; "Friday"; "Saturday"].

Definition day_counts (filtered_df : DataFrame) : Series string (option nat) :=
  reindex weekdays (value_counts (map Day_of_Week filtered_df)).

(** Line 150. *)
Definition monthly_counts (filtered_df : DataFrame) : Series Z nat :=
  groupby_size (map Month filtered_df).

(** Lines 162-163. *)
Definition delayed (filtered_df : DataFrame) : DataFrame :=
  filter (fun r => Bool.eqb (Is_Delayed r) true) filtered_df.

Definition delayed_reasons (filtered_df : DataFrame) : Series string nat :=
  value_counts (map Reason_for_Delay (delayed filtered_df)).

(** Lines 181-182. *)
Definition cancelled (filtered_df : DataFrame) : DataFrame :=
  filter (fun r => Bool.eqb (Is_Cancelled r) true) filtered_df.

Definition cancel_reasons (filtered_df : DataFrame) : Series string nat :=
  value_counts (map Reason_for_Delay (cancelled filtered_df)).

(** Lines 202-207. *)
Definition revenue_pivot {np : Numpy} (filtered_df : DataFrame) : Table number :=
  fillna (VFloat 0%float)
    (pivot_table_sum
       (map (fun r => (Ticket_Type r, Ticket_Class r, Price r)) filtered_df)).

(** Lines 34-35: the bounds offered to the date picker. *)
Definition min_date (df : DataFrame) : option Z :=
  col_min (map Date_of_Journey df).

Definition max_date (df : DataFrame) : option Z :=
  col_max (map Date_of_Journey df).

(** Lines 38, 46, 50: ["All"] + sorted(df[col].dropna().unique()). *)
Definition sorted_options (col : Row -> option string) (df : DataFrame)
  : list string :=
  "All" :: sorted (unique (dropna (map col df))).

Definition hours (df : DataFrame) : list string :=
  sorted_options Hour_AM_PM df.

Definition departures (df : DataFrame) : list string :=
  sorted_options Departure_Station df.

Definition arrivals (df : DataFrame) : list string :=
  sorted_options Arrival_Destination df.

(** Line 42: ["All"] + list(df["Day_of_Week"].dropna().unique()). *)
Definition days (df : DataFrame) : list string :=
  "All" :: unique (dropna (map Day_of_Week df)).

(** Lines 35-51: what the widgets return before the user touches them,
    for a table whose first and last dates are [lo] and [hi]. *)
Definition default_selection (lo hi : Z) : Selection :=
  mkSelection [lo; hi] ["All"] ["All"] ["All"] ["All"].

(** Lines 88-91: the texts of the first four metrics.  (The fifth figure
    is a float when a refund cell is unmapped; its text is not modelled.) *)
Definition metric_texts (k : KPIs) : list (string * string) :=
  [("Total Journeys", Py.format_comma (Z.of_nat (totalJourneys k)));
   ("Total Revenue", String "$" (Py.format_comma (totalRevenue k)));
   ("Delayed Journeys", Py.format_comma (Z.of_nat (totalDelayed k)));
   ("Cancelled Journeys", Py.format_comma (Z.of_nat (totalCancelled k)))].

(** Lines 209-215: one bar series per column of the pivot. *)
Record Bar : Type := mkBar {
  bar_x : list string;
  bar_y : list number;
  bar_name : string
}.

Fixpoint add_traces (pivot : Table number) (classes : list string)
  : option (list Bar) :=
  match classes with
  | [] => Some []
  | cls :: rest =>
      match getcol pivot cls with
      | Some ys =>
          option_map (cons (mkBar (index pivot) ys cls)) (add_traces pivot rest)
      | None => None
      end
  end.

Definition fig_revenue (revenue_pivot : Table number) : option (list Bar) :=
  add_traces revenue_pivot (columns revenue_pivot).

End App.

(** ** Vocabulary of the properties *)

Module Spec.

(** *** Filtering *)

(** The date predicate, active when a range is given. *)
Definition date_ok (c : Selection) (r : Row) : Prop :=
  match date_range c with
  | s :: e :: _ => exists d, Date_of_Journey r = Some d /\ (s <= d <= e)%Z
  | _ => True
  end.

(** A categorical predicate, as the script applies it: no restriction
    when the selection has the sentinel "All", alone or among other
    labels; membership of the row's field in the selection otherwise. *)
Definition dim_ok (selected : list string) (cell : option string) : Prop :=
  In "All" selected \/ exists s, cell = Some s /\ In s selected.

Definition satisfies (c : Selection) (r : Row) : Prop :=
  date_ok c r
  /\ dim_ok (selected_hours c) (Hour_AM_PM r)
  /\ dim_ok (selected_days c) (Day_of_Week r)
  /\ dim_ok (selected_departures c) (Departure_Station r)
  /\ dim_ok (selected_arrivals c) (Arrival_Destination r).

(** The same predicates as decisions. *)
Definition date_okb (c : Selection) (r : Row) : bool :=
  match date_range c with
  | s :: e :: _ =>
      match Date_of_Journey r with
      | Some d => (s <=? d)%Z && (d <=? e)%Z
      | None => false
      end
  | _ => true
  end.

Definition dim_okb (selected : list string) (cell : option string) : bool :=
  Pandas.contains "All" selected || Pandas.isin selected cell.

Definition satisfiesb (c : Selection) (r : Row) : bool :=
  date_okb c r
  && dim_okb (selected_hours c) (Hour_AM_PM r)
  && dim_okb (selected_days c) (Day_of_Week r)
  && dim_okb (selected_departures c) (Departure_Station r)
  && dim_okb (selected_arrivals c) (Arrival_Destination r).

(** The selection, as a set, is the sentinel set. *)
Definition is_sentinel_set (selected : list string) : Prop :=
  forall s, In s selected <-> s = "All".

(** The categorical predicate read with the sentinel set: no restriction
    when the selection is the sentinel set, membership of the row's field
    in the selection otherwise. *)
Definition dim_ok_stated (selected : list string) (cell : option string) : Prop :=
  is_sentinel_set selected \/ exists s, cell = Some s /\ In s selected.

Definition satisfies_stated (c : Selection) (r : Row) : Prop :=
  date_ok c r
  /\ dim_ok_stated (selected_hours c) (Hour_AM_PM r)
  /\ dim_ok_stated (selected_days c) (Day_of_Week r)
  /\ dim_ok_stated (selected_departures c) (Departure_Station r)
  /\ dim_ok_stated (selected_arrivals c) (Arrival_Destination r).

(** A dimension is unrestricted when its filter step keeps every table
    as it is. *)
Definition unrestricted (col : Row -> option string) (selected : list string) : Prop :=
  forall df, App.filter_isin col selected df = df.

(** A label that is in no element of a finite selection: longer than each. *)
Definition fresh_label (selected : list string) : string :=
  fold_right String.append "x" selected.

(** *** Counting and summing *)

(** A cell holds a given label. *)
Definition cell_is (l : string) (cell : option string) : bool :=
  match cell with
  | Some s => String.eqb s l
  | None => false
  end.

Definition count_rows (p : Row -> bool) (df : DataFrame) : nat :=
  List.length (filter p df).

(** Number of cells of a column (missing cells dropped) equal to a label. *)
Definition occurrences {K} `{Compare K} (k : K) (l : list K) : nat :=
  List.length (filter (eqk k) l).

(** Sum of the counts of a series. *)
Definition total_count {K} (s : Pandas.Series K nat) : nat :=
  fold_right (fun e n => snd e + n) 0 s.

Definition is_present {A} (cell : option A) : bool :=
  match cell with
  | Some _ => true
  | None => false
  end.

(** Number of rows with a given label in a column. *)
Definition label_count (col : Row -> option string) (df : DataFrame) (l : string) : nat :=
  count_rows (fun r => cell_is l (col r)) df.

(** Number of flagged rows with a given reason. *)
Definition reason_count (flag : Row -> bool) (df : DataFrame) (l : string) : nat :=
  count_rows (fun r => flag r && cell_is l (Reason_for_Delay r)) df.

(** The cells of one group, in row order. *)
Definition values_of {K X} `{Compare K} (k : K) (rows : list (K * X)) : list X :=
  map snd (filter (fun kx => eqk k (fst kx)) rows).

(** Folding the cells of one group with the step of an aggregation. *)
Definition fold_group {X V} (step : option V -> X -> V) (xs : list X)
    (o : option V) : option V :=
  fold_left (fun o x => Some (step o x)) xs o.

(** An integer within the 64 bits of an int64. *)
Definition in_int64 (z : Z) : Prop := (- 2 ^ 63 <= z < 2 ^ 63)%Z.

(** The price column of the table is an int64 column. *)
Definition int64_table (df : DataFrame) : Prop :=
  forall r, In r df -> exists z, Price r = Int64 z /\ in_int64 z.

(** The price column of the table is a float64 column, with a cell. *)
Definition float64_table (df : DataFrame) : Prop :=
  df <> [] /\ forall r, In r df -> exists x, Price r = Float64 x.



(** The price of a row of an int64 table. *)
Definition int_price (r : Row) : Z :=
  match Price r with
  | Int64 z => z
  | Float64 _ => 0%Z
  end.

(** The sum of the prices of an int64 table, as an integer without
    bound. *)
Definition exact_sum (df : DataFrame) : Z :=
  fold_right (fun r acc => (int_price r + acc)%Z) 0%Z df.






Definition sum_Z_list (l : list Z) : Z :=
  fold_right Z.add 0%Z l.

(** The price column of a table has no float cell. *)
Definition is_int64 (df : DataFrame) : bool :=
  forallb (fun r => match Price r with
                    | Int64 _ => true
                    | Float64 _ => false
                    end) df.





(** *** Orders *)

(** Descending by count. *)
Definition desc_by_count {K} (s : Pandas.Series K nat) : Prop :=
  StronglySorted (fun a b => snd b <= snd a) s.

(** Strictly ascending in the order of the labels' type. *)
Definition ascending {K} `{Compare K} (l : list K) : Prop :=
  StronglySorted (fun a b => cmp a b = Lt) l.

(** The hour of the day an hour label encodes: "12 AM" is 0, "9 AM" is 9,
    "12 PM" is 12, "1 PM" is 13. *)
Definition digit (c : ascii) : option nat :=
  let n := nat_of_ascii c in
  if (48 <=? n) && (n <=? 57) then Some (n - 48) else None.

Fixpoint split_numeral (s : string) (acc : option nat) : option (nat * string) :=
  match s with
  | EmptyString => None
  | String c rest =>
      if Ascii.eqb c " "%char then
        match acc with
        | Some n => Some (n, rest)
        | None => None
        end
      else
        match digit c, acc with
        | Some d, Some n => split_numeral rest (Some (10 * n + d))
        | Some d, None => split_numeral rest (Some d)
        | None, _ => None
        end
  end.

Definition hour_of_label (s : string) : option nat :=
  match split_numeral s None with
  | Some (n, half) =>
      if (1 <=? n) && (n <=? 12) then
        if String.eqb half "AM" then Some (n mod 12)
        else if String.eqb half "PM" then Some (n mod 12 + 12)
        else None
      else None
  | None => None
  end.

(** Chronological order of hour labels. *)
Definition earlier (a b : string) : Prop :=
  match hour_of_label a, hour_of_label b with
  | Some x, Some y => x < y
  | _, _ => True
  end.

Definition chronological (labels : list string) : Prop :=
  StronglySorted earlier labels.

(** *** Further vocabulary *)

(** A selection that can match nothing: no sentinel, and none of its
    labels occurs in the column. *)
Definition matches_nothing (col : Row -> option string) (selected : list string)
    (df : DataFrame) : Prop :=
  ~ In "All" selected /\ forall s, In s selected -> label_count col df s = 0.

Definition has_date (r : Row) : bool := is_present (Date_of_Journey r).

(** Number of rows in a given month. *)
Definition month_count (df : DataFrame) (m : Z) : nat :=
  count_rows (fun r => match Month r with
                       | Some m' => (m' =? m)%Z
                       | None => false
                       end) df.

(** Sum of the values of a series with missing values. *)
Definition total_present {K} (s : Pandas.Series K (option nat)) : nat :=
  Pandas.sum_nat (map snd s).

(** No price of an int64 table is negative. *)
Definition prices_nonneg (df : DataFrame) : Prop :=
  forall r, In r df -> (0 <= int_price r)%Z.

(** Reading a metric text back: drop the commas and the currency sign,
    read the numeral. *)
Definition is_mark (c : ascii) : bool :=
  Ascii.eqb c ","%char || Ascii.eqb c "$"%char.

(** A character that is neither a mark nor a sign. *)
Definition plain (c : ascii) : bool :=
  negb (is_mark c) && negb (Ascii.eqb c "-"%char).

Definition strip_marks (s : string) : string :=
  string_of_list_ascii
    (filter (fun c => negb (is_mark c)) (list_ascii_of_string s)).

Definition read_N (s : string) : option N :=
  option_map N.of_uint (DecimalString.NilEmpty.uint_of_string s).

Definition read_int (s : string) : option Z :=
  match s with
  | String c rest =>
      if Ascii.eqb c "-"%char
      then option_map (fun n => (- Z.of_N n)%Z) (read_N rest)
      else option_map Z.of_N (read_N s)
  | EmptyString => None
  end.

Definition count_commas (s : string) : nat :=
  List.length (filter (fun c => Ascii.eqb c ","%char) (list_ascii_of_string s)).

(** An option list of the side bar: the sentinel, then the labels of the
    column. *)
Definition offers_sorted (col : Row -> option string) (options : list string)
    (df : DataFrame) : Prop :=
  exists labels,
    options = "All" :: labels
    /\ ascending labels
    /\ forall l, In l labels <-> 0 < label_count col df l.

(** The filter step under the selection [c], in which the label [l]
    alone is picked for the column [col]: it keeps exactly the dated rows
    holding [l]; some row of the table holds [l]; and a row is kept as
    soon as the rows holding [l] are dated. *)
Definition selects_own_rows (col : Row -> option string) (df : DataFrame)
    (c : Selection) (l : string) : Prop :=
  App.filtered_df df c
  = Py.Ok (filter (fun r => has_date r && cell_is l (col r)) df)
  /\ 0 < label_count col df l
  /\ ((forall r, In r df -> col r = Some l -> has_date r = true) ->
      filter (fun r => has_date r && cell_is l (col r)) df <> []).

(** Every selection of [c] is within the matching selection of [c']. *)
Definition narrower (c c' : Selection) : Prop :=
  date_range c = date_range c'
  /\ incl (selected_hours c) (selected_hours c')
  /\ incl (selected_days c) (selected_days c')
  /\ incl (selected_departures c) (selected_departures c')
  /\ incl (selected_arrivals c) (selected_arrivals c').

Definition read_metric (s : string) : option Z :=
  read_int (strip_marks s).

End Spec.

(** ** Laws of the label orders *)

Class CompareLaws (K : Type) (C : Compare K) : Prop := {
  cmp_eq : forall a b : K, cmp a b = Eq <-> a = b;
  cmp_antisym : forall a b : K, cmp b a = CompOpp (cmp a b);
  cmp_trans : forall a b c : K, cmp a b = Lt -> cmp b c = Lt -> cmp a c = Lt
}.

Arguments CompareLaws K {C}.

(** ** Sample rows *)

Module Sample.

(** A row with every cell missing and both flags off. *)
Definition blank : Row :=
  mkRow None None None None None None None (Float64 nan) false false None None None None.

Definition journey_on (d : Z) : Row :=
  mkRow (Some d) None None None None None None (Float64 nan) false false None None None None.

Definition at_hour (h : string) : Row :=
  mkRow None (Some h) None None None None None (Float64 nan) false false None None None None.

Definition on_day (d : string) : Row :=
  mkRow None None (Some d) None None None None (Float64 nan) false false None None None None.

Definition from_station (s : string) : Row :=
  mkRow None None None None (Some s) None None (Float64 nan) false false None None None None.

Definition to_station (s : string) : Row :=
  mkRow None None None None None (Some s) None (Float64 nan) false false None None None None.


Definition ticket (t c : option string) (p : Z) : Row :=
  mkRow None None None None None None None (Int64 p)
        false false None None t c.

(** The three journeys of the worked scenario. *)
Definition trip (route : string) (p : Z) (late : bool) (why : option string) : Row :=
  mkRow None None None None None None (Some route) (Int64 p)
        late false why None None None.

Definition scenario : DataFrame :=
  [trip "A-B" 100 false None;
   trip "A-B" 50 true (Some "Signal Fault");
   trip "C-D" 200 false None].

Definition all_selection (dates : list Z) : Selection :=
  mkSelection dates ["All"] ["All"] ["All"] ["All"].

(** A dated journey with every categorical cell filled. *)
Definition full (d : Z) (hour day dep arr : string) (p : Z) : Row :=
  mkRow (Some d) (Some hour) (Some day) (Some (d / 31 + 1)%Z) (Some dep) (Some arr)
        (Some (String.append dep (String.append "-" arr)))
        (Int64 p) false false None (Some "No")
        (Some "Advance") (Some "Standard").

Definition week : DataFrame :=
  [full 3 "9 AM" "Monday" "York" "Leeds" 12;
   full 1 "10 AM" "Sunday" "Leeds" "York" 7;
   full 9 "9 AM" "Monday" "York" "Hull" 30].


(** A ticket of a float64 column. *)
Definition fare (t c : option string) (x : float) : Row :=
  mkRow None None None None None None None (Float64 x)
        false false None None t c.

(** Three float64 prices: the floats nearest to 1.4, 2.8 and 1.8. *)
Definition small_change : DataFrame :=
  [fare None None 0x1.6666666666666p+0%float;
   fare None None 0x1.6666666666666p+1%float;
   fare None None 0x1.ccccccccccccdp+0%float].

(** Float64 addition from left to right, starting from 0.0, the NaN
    cells of a group left out: the way numpy adds a column of fewer than
    eight cells.  It serves the examples; the theorems hold for every
    summation. *)
Definition left_to_right : Pandas.Numpy :=
  {| Pandas.ndarray_sum := fun l => fold_left PrimFloat.add l 0%float;
     Pandas.group_sum_float :=
       fun l => fold_left PrimFloat.add
                  (filter (fun x => negb (PrimFloat.is_nan x)) l) 0%float |}.

End Sample.

(** * Properties *)

(** ** Lists *)

Lemma Subseq_refl {A} (l : list A) : Subseq l l.
Proof. induction l; constructor; assumption. Qed.

Lemma Subseq_filter {A} (p : A -> bool) (l : list A) : Subseq (filter p l) l.
Proof.
  induction l as [|x l IH]; simpl.
  - constructor.
  - destruct (p x); constructor; exact IH.
Qed.

Lemma filter_filter {A} (p q : A -> bool) (l : list A) :
  filter p (filter q l) = filter (fun x => q x && p x) l.
Proof.
  induction l as [|x l IH]; simpl; [reflexivity|].
  destruct (q x); simpl; [destruct (p x)|]; rewrite IH; reflexivity.
Qed.

Lemma filter_all {A} (p : A -> bool) (l : list A) :
  (forall x, In x l -> p x = true) -> filter p l = l.
Proof.
  induction l as [|x l IH]; simpl; intros H; [reflexivity|].
  rewrite (H x (or_introl eq_refl)), IH; [reflexivity|].
  intros y Hy; apply H; right; exact Hy.
Qed.

Lemma filter_none {A} (p : A -> bool) (l : list A) :
  (forall x, In x l -> p x = false) -> filter p l = [].
Proof.
  induction l as [|x l IH]; simpl; intros H; [reflexivity|].
  rewrite (H x (or_introl eq_refl)). apply IH.
  intros y Hy; apply H; right; exact Hy.
Qed.

(** ** The filter step *)

Section FilterStep.

Import Pandas App Spec.

Lemma contains_In x l : contains x l = true <-> In x l.
Proof.
  unfold contains. rewrite existsb_exists. split.
  - intros [y [Hy He]]. apply String.eqb_eq in He. subst y. exact Hy.
  - intros H. exists x. split; [exact H | apply String.eqb_refl].
Qed.

Lemma isin_spec selected cell :
  isin selected cell = true <-> exists s, cell = Some s /\ In s selected.
Proof.
  destruct cell as [s|]; simpl.
  - rewrite contains_In. split.
    + intros H; exists s; auto.
    + intros [s' [E H]]; inversion E; subst; exact H.
  - split; [discriminate | intros [s [E _]]; discriminate].
Qed.

Lemma dim_okb_spec selected cell :
  dim_okb selected cell = true <-> dim_ok selected cell.
Proof.
  unfold dim_okb, dim_ok.
  rewrite orb_true_iff, contains_In, isin_spec. reflexivity.
Qed.

Lemma date_okb_spec c r : date_okb c r = true <-> date_ok c r.
Proof.
  unfold date_okb, date_ok.
  destruct (date_range c) as [|s [|e rest]]; try tauto.
  destruct (Date_of_Journey r) as [d|].
  - rewrite andb_true_iff, !Z.leb_le. split.
    + intros H; exists d; auto.
    + intros [d' [E H]]; inversion E; subst; exact H.
  - split; [discriminate | intros [d [E _]]; discriminate].
Qed.

Lemma satisfiesb_spec c r : satisfiesb c r = true <-> satisfies c r.
Proof.
  unfold satisfiesb, satisfies.
  rewrite !andb_true_iff, date_okb_spec, !dim_okb_spec. tauto.
Qed.

(** One dimension is one more conjunct of the mask. *)
Lemma filter_isin_mask col selected df :
  filter_isin col selected df = filter (fun r => dim_okb selected (col r)) df.
Proof.
  unfold filter_isin, dim_okb.
  destruct (contains "All" selected); simpl.
  - symmetry. apply filter_all. reflexivity.
  - reflexivity.
Qed.

Lemma filter_date_mask c df :
  List.length (date_range c) <> 1 ->
  filter_date (date_range c) df = Py.Ok (filter (date_okb c) df).
Proof.
  unfold filter_date, date_okb.
  destruct (date_range c) as [|s [|e rest]]; simpl; intros H.
  - f_equal. symmetry. apply filter_all. reflexivity.
  - contradiction H; reflexivity.
  - f_equal. apply filter_ext. intros r.
    destruct (Date_of_Journey r); reflexivity.
Qed.

Lemma filtered_df_mask df c :
  List.length (date_range c) <> 1 ->
  filtered_df df c = Py.Ok (filter (satisfiesb c) df).
Proof.
  intros H. unfold filtered_df.
  rewrite (filter_date_mask c df H). simpl.
  rewrite !filter_isin_mask, !filter_filter.
  f_equal. apply filter_ext. intros r. unfold satisfiesb.
  rewrite !andb_assoc. reflexivity.
Qed.

End FilterStep.

(** C1, as stated, fails.  A dimension is 'All' when its selection is the
    sentinel set; under the hours ["All"; "9 AM"], which is not that set,
    membership is an active predicate, and a "10 AM" journey fails it.
    The filter step keeps the journey all the same. *)
Lemma filtered_df_keeps_unselected_counterexample :
  App.filtered_df
    [Sample.full 3 "10 AM" "Monday" "York" "Leeds" 12]
    (mkSelection [1; 9]%Z ["All"; "9 AM"] ["All"] ["All"] ["All"])
  = Py.Ok [Sample.full 3 "10 AM" "Monday" "York" "Leeds" 12]
  /\ ~ Spec.satisfies_stated
        (mkSelection [1; 9]%Z ["All"; "9 AM"] ["All"] ["All"] ["All"])
        (Sample.full 3 "10 AM" "Monday" "York" "Leeds" 12).
Proof.
  split; [reflexivity|].
  intros [_ [[S | [s [E Hin]]] _]].
  - assert (E : "9 AM" = "All") by (apply S; simpl; auto).
    discriminate E.
  - cbn in E. inversion E; subst s.
    destruct Hin as [F | [F | []]]; discriminate F.
Qed.

(** C1, amended.  A dimension is active when its selection does not
    contain the sentinel "All".  Whenever the date selection is not a
    lone bound, the filter step returns a table; that table is the input
    with exactly the rows removed that fail some active predicate -- the
    date within the inclusive range, and for every active dimension the
    row's field among the selected labels.  Every row of the output
    satisfies all of them, every input row that satisfies all of them is
    in the output, and the rows kept stay in their input order with their
    multiplicity. *)
Theorem filtered_df_sound_complete (df : DataFrame) (c : Selection) :
  List.length (date_range c) <> 1 ->
  exists out,
    App.filtered_df df c = Py.Ok out
    /\ out = filter (Spec.satisfiesb c) df
    /\ (forall r, Spec.satisfiesb c r = true <-> Spec.satisfies c r)
    /\ (forall r, In r out <-> In r df /\ Spec.satisfies c r)
    /\ Subseq out df.
Proof.
  intros H. exists (filter (Spec.satisfiesb c) df).
  split; [apply filtered_df_mask; exact H|].
  split; [reflexivity|].
  split; [intros r; apply satisfiesb_spec|].
  split.
  - intros r. rewrite filter_In, satisfiesb_spec. reflexivity.
  - apply Subseq_filter.
Qed.

(** A week of three journeys, narrowed to the first five days, the hour
    "9 AM" and the departures from York: one journey is left. *)
Lemma filtered_df_sound_complete_witness :
  exists out,
    App.filtered_df Sample.week
      (mkSelection [1; 5]%Z ["9 AM"] ["All"] ["York"; "Hull"] ["All"])
    = Py.Ok out
    /\ out = filter (Spec.satisfiesb
                       (mkSelection [1; 5]%Z ["9 AM"] ["All"] ["York"; "Hull"] ["All"]))
                    Sample.week
    /\ (forall r,
          Spec.satisfiesb
            (mkSelection [1; 5]%Z ["9 AM"] ["All"] ["York"; "Hull"] ["All"]) r = true
          <-> Spec.satisfies
                (mkSelection [1; 5]%Z ["9 AM"] ["All"] ["York"; "Hull"] ["All"]) r)
    /\ (forall r, In r out <->
                  In r Sample.week
                  /\ Spec.satisfies
                       (mkSelection [1; 5]%Z ["9 AM"] ["All"] ["York"; "Hull"] ["All"]) r)
    /\ Subseq out Sample.week.
Proof.
  apply (filtered_df_sound_complete
           Sample.week
           (mkSelection [1; 5]%Z ["9 AM"] ["All"] ["York"; "Hull"] ["All"])).
  simpl. lia.
Defined.

(** The same narrowing, evaluated. *)
Example filtered_df_week :
  App.filtered_df Sample.week
    (mkSelection [1; 5]%Z ["9 AM"] ["All"] ["York"; "Hull"] ["All"])
  = Py.Ok [Sample.full 3 "9 AM" "Monday" "York" "Leeds" 12].
Proof. reflexivity. Qed.

(** ** The sentinel 'All' *)

Section Sentinel.

Import Pandas App Spec.

Lemma length_append (s t : string) :
  String.length (s ++ t) = String.length s + String.length t.
Proof. induction s as [|a s IH]; simpl; [reflexivity | rewrite IH; reflexivity]. Qed.

Lemma fresh_label_longer selected s :
  In s selected -> String.length s < String.length (fresh_label selected).
Proof.
  induction selected as [|t rest IH]; simpl; [contradiction|].
  rewrite length_append. intros [E | H].
  - subst t. clear IH.
    assert (0 < String.length (fresh_label rest)).
    { unfold fresh_label. destruct rest; simpl; [lia|].
      rewrite length_append.
      clear. induction rest; simpl; [lia | rewrite length_append; lia]. }
    lia.
  - specialize (IH H). lia.
Qed.

Lemma fresh_label_not_in selected : ~ In (fresh_label selected) selected.
Proof. intros H. apply fresh_label_longer in H. lia. Qed.

(** A dimension whose column can hold any label is unrestricted exactly
    when the selection has the sentinel. *)
Lemma unrestricted_iff (col : Row -> option string) (mk : string -> Row) :
  (forall s, col (mk s) = Some s) ->
  forall selected, unrestricted col selected <-> In "All" selected.
Proof.
  intros Hmk selected. unfold unrestricted, filter_isin. split.
  - intros H. apply contains_In.
    destruct (contains "All" selected) eqn:E; [reflexivity|].
    specialize (H [mk (fresh_label selected)]).
    cbn [negb filter] in H. rewrite Hmk in H.
    cbn [isin] in H.
    destruct (contains (fresh_label selected) selected) eqn:F.
    + apply contains_In in F. apply fresh_label_not_in in F. contradiction.
    + discriminate H.
  - intros H df. apply contains_In in H. rewrite H. reflexivity.
Qed.

End Sentinel.

(** C3, as stated, fails: the selection ["All"; "9 AM"] is not the
    sentinel set, yet the hour dimension is unrestricted under it (a
    "10 AM" journey passes). *)
Lemma sentinel_among_others_counterexample :
  ~ (Spec.unrestricted Hour_AM_PM ["All"; "9 AM"]
     <-> Spec.is_sentinel_set ["All"; "9 AM"])
  /\ App.filter_isin Hour_AM_PM ["All"; "9 AM"] [Sample.at_hour "10 AM"]
     = [Sample.at_hour "10 AM"].
Proof.
  split; [|reflexivity].
  intros [H _].
  assert (U : Spec.unrestricted Hour_AM_PM ["All"; "9 AM"]).
  { intros df. reflexivity. }
  specialize (H U "9 AM"). destruct H as [H _].
  assert (E : "9 AM" = "All") by (apply H; simpl; auto).
  discriminate E.
Qed.

(** C3, amended.  Each of the four categorical dimensions is unrestricted
    if and only if its selection contains the sentinel "All", alone or
    among other labels. *)
Theorem unrestricted_iff_contains_sentinel (selected : list string) :
  (Spec.unrestricted Hour_AM_PM selected <-> In "All" selected)
  /\ (Spec.unrestricted Day_of_Week selected <-> In "All" selected)
  /\ (Spec.unrestricted Departure_Station selected <-> In "All" selected)
  /\ (Spec.unrestricted Arrival_Destination selected <-> In "All" selected).
Proof.
  repeat split.
  all: try (apply (unrestricted_iff Hour_AM_PM Sample.at_hour); reflexivity).
  all: try (apply (unrestricted_iff Day_of_Week Sample.on_day); reflexivity).
  all: try (apply (unrestricted_iff Departure_Station Sample.from_station); reflexivity).
  all: try (apply (unrestricted_iff Arrival_Destination Sample.to_station); reflexivity).
Qed.

(** ** Malformed date ranges *)

(** C4, as stated, fails: a reversed range raises nothing; the filter
    step returns the empty table. *)
Lemma reversed_range_counterexample :
  App.filtered_df [Sample.journey_on 5] (Sample.all_selection [10; 1]%Z) = Py.Ok []
  /\ ~ (exists e, App.filtered_df [Sample.journey_on 5]
                    (Sample.all_selection [10; 1]%Z) = Py.Raise e).
Proof.
  split; [reflexivity|]. intros [e H]. discriminate H.
Qed.

(** C4, amended.  The filter step does not validate the date range.  A
    range whose end is before its start yields the empty table, without
    an error; a lone bound makes the step fail with [IndexError]. *)
Theorem malformed_date_range (df : DataFrame)
    (hours days departures arrivals : list string) :
  (forall s e : Z, (e < s)%Z ->
     App.filtered_df df (mkSelection [s; e] hours days departures arrivals)
     = Py.Ok [])
  /\ (forall d : Z,
     App.filtered_df df (mkSelection [d] hours days departures arrivals)
     = Py.Raise Py.IndexError).
Proof.
  split.
  - intros s e Hlt.
    rewrite filtered_df_mask by (simpl; lia).
    f_equal. apply filter_none. intros r _.
    unfold Spec.satisfiesb, Spec.date_okb. simpl.
    destruct (Date_of_Journey r) as [d|]; [|reflexivity].
    destruct (s <=? d)%Z eqn:E1; [|reflexivity].
    destruct (d <=? e)%Z eqn:E2; [|reflexivity].
    apply Z.leb_le in E1. apply Z.leb_le in E2. lia.
  - intros d. reflexivity.
Qed.

Lemma malformed_date_range_witness :
  App.filtered_df Sample.scenario (Sample.all_selection [10; 1]%Z) = Py.Ok []
  /\ App.filtered_df Sample.scenario (Sample.all_selection [10]%Z)
     = Py.Raise Py.IndexError.
Proof.
  destruct (malformed_date_range Sample.scenario ["All"] ["All"] ["All"] ["All"])
    as [Hrev Hone].
  split.
  - apply (Hrev 10%Z 1%Z). lia.
  - apply (Hone 10%Z).
Defined.

(** ** The KPI figures *)

Section Figures.

Import Pandas App Spec.

Lemma sum_bool_count (flag : Row -> bool) (df : DataFrame) :
  sum_bool (map flag df) = count_rows flag df.
Proof.
  unfold count_rows.
  induction df as [|r df IH]; simpl; [reflexivity|].
  rewrite IH. destruct (flag r); reflexivity.
Qed.


Lemma wrap64_small (z : Z) : in_int64 z -> wrap64 z = z.
Proof.
  unfold in_int64, wrap64. intros H.
  rewrite Z.mod_small by lia. lia.
Qed.

Lemma wrap64_add_l (a b : Z) : wrap64 (wrap64 a + b) = wrap64 (a + b).
Proof.
  unfold wrap64. f_equal.
  replace ((a + 2 ^ 63) mod 2 ^ 64 - 2 ^ 63 + b + 2 ^ 63)%Z
    with ((a + 2 ^ 63) mod 2 ^ 64 + b)%Z by lia.
  rewrite Zplus_mod_idemp_l. f_equal. lia.
Qed.

Lemma fold_add64 (zs : list Z) (a : Z) :
  fold_left add64 zs (wrap64 a) = wrap64 (a + sum_Z_list zs).
Proof.
  revert a. induction zs as [|z zs IH]; intros a; simpl.
  - f_equal. lia.
  - unfold add64 at 2. rewrite wrap64_add_l, IH. f_equal. lia.
Qed.

Lemma sum64_wrap (zs : list Z) : sum64 zs = wrap64 (sum_Z_list zs).
Proof.
  unfold sum64. change 0%Z with (wrap64 0) at 1. apply fold_add64.
Qed.

(** The two dtypes of the price column. *)
Lemma exact_sum_list (df : DataFrame) :
  exact_sum df = sum_Z_list (map int_price df).
Proof.
  unfold exact_sum, sum_Z_list.
  induction df as [|r df IH]; simpl; [reflexivity|]. rewrite IH. reflexivity.
Qed.

Lemma int64_values_dtype (df : DataFrame) :
  int64_values (map Price df)
  = if is_int64 df then Some (map int_price df) else None.
Proof.
  unfold is_int64. induction df as [|r df IH]; simpl; [reflexivity|].
  unfold int_price at 1. destruct (Price r) as [z | x]; [|reflexivity].
  rewrite IH. cbn [andb].
  destruct (forallb _ df); reflexivity.
Qed.

Lemma is_int64_table (df : DataFrame) : int64_table df -> is_int64 df = true.
Proof.
  intros T. unfold is_int64. apply forallb_forall. intros r Hin.
  destruct (T r Hin) as [z [E _]]. rewrite E. reflexivity.
Qed.


Lemma int64_values_table (df : DataFrame) :
  int64_table df -> int64_values (map Price df) = Some (map int_price df).
Proof.
  intros T. rewrite int64_values_dtype, (is_int64_table T). reflexivity.
Qed.


Lemma total_revenue_int64 {np : Numpy} (df : DataFrame) :
  int64_table df -> total_revenue df = VInt (wrap64 (exact_sum df)).
Proof.
  intros T. unfold total_revenue, sum_price.
  rewrite (int64_values_table T), sum64_wrap, exact_sum_list. reflexivity.
Qed.



(** What the dict of line 83 does to one cell. *)
Lemma refund_flag_cell (s : string) :
  dict_get [("Yes", 1); ("No", 0)] s
  = if String.eqb s "Yes" then Some 1
    else if String.eqb s "No" then Some 0 else None.
Proof. reflexivity. Qed.

Lemma total_refund_cons (r : Row) (df : DataFrame) :
  total_refund (r :: df)
  = Nat.b2n (cell_is "Yes" (Refund_Request r)) + total_refund df.
Proof.
  unfold total_refund, refund_flags, sum_nat, map_dict.
  cbn [map]. destruct (Refund_Request r) as [s|]; [|reflexivity].
  rewrite refund_flag_cell. unfold cell_is.
  destruct (String.eqb s "Yes"); [reflexivity|].
  destruct (String.eqb s "No"); reflexivity.
Qed.

Lemma total_refund_count (df : DataFrame) :
  total_refund df = count_rows (fun r => cell_is "Yes" (Refund_Request r)) df.
Proof.
  induction df as [|r df IH]; [reflexivity|].
  rewrite total_refund_cons, IH. unfold count_rows. simpl.
  destruct (cell_is "Yes" (Refund_Request r)); reflexivity.
Qed.

End Figures.



(** The worked scenario of three journeys: 3 journeys, revenue 350, one
    delayed. *)
Example kpis_scenario :
  forall np : Pandas.Numpy,
    @App.kpis np Sample.scenario = App.mkKPIs 3 350 1 0 0.
Proof. intros np. reflexivity. Qed.

(** Its price column is int64, and its prices add up to 350. *)
Example kpis_scenario_prices :
  Spec.int64_table Sample.scenario
  /\ Spec.exact_sum Sample.scenario = 350%Z
  /\ Spec.in_int64 (Spec.exact_sum Sample.scenario).
Proof.
  split.
  { intros r [<- | [<- | [<- | []]]]; eexists; (split; [reflexivity|]);
      unfold Spec.in_int64; lia. }
  split; [reflexivity|].
  unfold Spec.in_int64. cbn. lia.
Qed.

(** Float64 prices of 1.4, 2.8 and 1.8, added from left to right, come to
    5.999999999999999: the revenue shown is 5. *)
Example kpis_small_change :
  @App.revenue_figure Sample.left_to_right Sample.small_change = Py.Ok 5%Z
  /\ Spec.float64_table Sample.small_change.
Proof.
  split; [vm_compute; reflexivity|].
  split; [discriminate|].
  intros r [<- | [<- | [<- | []]]]; eexists; reflexivity.
Qed.

(** ** The label orders are strict total orders *)

Lemma string_laws : CompareLaws string.
Proof.
  assert (Irr : forall x, ~ String_as_OT.lt x x)
    by (intros x; apply irreflexivity).
  assert (Tr : forall x y z,
             String_as_OT.lt x y -> String_as_OT.lt y z -> String_as_OT.lt x z)
    by (intros x y z; apply transitivity).
  split; unfold cmp, Compare_string.
  - intros a b. split.
    + intros E. destruct (String_as_OT.compare_spec a b); congruence.
    + intros ->. destruct (String_as_OT.compare_spec b b) as [_|F|F];
        [reflexivity | | ]; destruct (Irr _ F).
  - intros a b.
    destruct (String_as_OT.compare_spec a b) as [E|F|F];
      destruct (String_as_OT.compare_spec b a) as [E'|F'|F'];
      simpl; try reflexivity; unfold String_as_OT.eq in *; subst; exfalso;
      try (eapply Irr; eassumption);
      try (eapply Irr; eapply Tr; eassumption).
  - intros a b c. apply Tr.
Qed.

Lemma Z_laws : CompareLaws Z.
Proof.
  split; unfold cmp, Compare_Z.
  - intros a b. apply Z.compare_eq_iff.
  - intros a b. apply Z.compare_antisym.
  - intros a b c. rewrite !Z.compare_lt_iff. lia.
Qed.

#[export] Existing Instance string_laws.
#[export] Existing Instance Z_laws.

Section Labels.

Context {K : Type} {C : Compare K} {L : CompareLaws K}.

Lemma cmp_refl (a : K) : cmp a a = Eq.
Proof. apply cmp_eq. reflexivity. Qed.

Lemma cmp_gt_lt (a b : K) : cmp a b = Gt -> cmp b a = Lt.
Proof. intros E. rewrite cmp_antisym, E. reflexivity. Qed.

Lemma cmp_lt_neq (a b : K) : cmp a b = Lt -> a <> b.
Proof. intros E ->. rewrite cmp_refl in E. discriminate. Qed.

Lemma eqk_eq (a b : K) : eqk a b = true <-> a = b.
Proof.
  unfold eqk. rewrite <- cmp_eq.
  destruct (cmp a b); split; congruence.
Qed.

Lemma eqk_refl (a : K) : eqk a a = true.
Proof. apply eqk_eq. reflexivity. Qed.

Lemma eqk_neq (a b : K) : eqk a b = false <-> a <> b.
Proof.
  rewrite <- eqk_eq. destruct (eqk a b); split; congruence.
Qed.

Lemma eqk_sym (a b : K) : eqk a b = eqk b a.
Proof.
  destruct (eqk a b) eqn:E; symmetry.
  - apply eqk_eq. apply eqk_eq in E. congruence.
  - apply eqk_neq. apply eqk_neq in E. congruence.
Qed.

End Labels.

Lemma pair_laws {A B : Type} {CA : Compare A} {CB : Compare B}
    {LA : CompareLaws A} {LB : CompareLaws B} :
  CompareLaws (A * B).
Proof.
  split; unfold cmp, Compare_pair.
  - intros [a1 b1] [a2 b2]; simpl. split.
    + destruct (cmp a1 a2) eqn:E; try discriminate.
      intros F. apply cmp_eq in E. apply cmp_eq in F. congruence.
    + intros E. inversion E; subst. rewrite !cmp_refl. reflexivity.
  - intros [a1 b1] [a2 b2]; simpl.
    rewrite (cmp_antisym a1 a2). destruct (cmp a1 a2); simpl; try reflexivity.
    apply cmp_antisym.
  - intros [a1 b1] [a2 b2] [a3 b3]; simpl.
    destruct (cmp a1 a2) eqn:E12; try discriminate;
      destruct (cmp a2 a3) eqn:E23; try discriminate; intros H12 H23.
    + apply cmp_eq in E12. apply cmp_eq in E23. subst.
      rewrite cmp_refl. eapply cmp_trans; eassumption.
    + apply cmp_eq in E12. subst. rewrite E23. reflexivity.
    + apply cmp_eq in E23. subst. rewrite E12. reflexivity.
    + rewrite (cmp_trans _ _ _ E12 E23). reflexivity.
Qed.

#[export] Existing Instance pair_laws.

(** ** Series: lookup, counting, sorting *)

Ltac eqk_cases :=
  repeat match goal with
         | |- context [eqk ?a ?b] => destruct (eqk a b) eqn:?
         end;
  repeat match goal with
         | E : eqk _ _ = true |- _ => apply eqk_eq in E
         | E : eqk _ _ = false |- _ => apply eqk_neq in E
         end;
  subst; try congruence.

Section SeriesFacts.

Import Pandas Spec.

Context {K : Type} {C : Compare K} {L : CompareLaws K}.

Lemma at_label_In {V} (s : Series K V) (k : K) (v : V) :
  NoDup (map fst s) -> (In (k, v) s <-> at_label s k = Some v).
Proof.
  induction s as [|[k0 v0] s IH]; simpl; intros ND.
  - split; [contradiction | discriminate].
  - inversion ND as [|? ? Hnot ND']; subst. specialize (IH ND').
    destruct (eqk k k0) eqn:E.
    + apply eqk_eq in E. subst k0. split.
      * intros [F | F]; [congruence|].
        exfalso. apply Hnot. apply (in_map fst) in F. exact F.
      * intros F. left. congruence.
    + apply eqk_neq in E. rewrite <- IH. split.
      * intros [F | F]; [congruence | exact F].
      * intros F. right. exact F.
Qed.

Lemma at_label_None {V} (s : Series K V) (k : K) :
  at_label s k = None <-> ~ In k (map fst s).
Proof.
  induction s as [|[k0 v0] s IH]; simpl.
  - tauto.
  - destruct (eqk k k0) eqn:E.
    + apply eqk_eq in E. subst. split; [discriminate | intros F; tauto].
    + apply eqk_neq in E. rewrite IH. split.
      * intros F [G | G]; [congruence | tauto].
      * tauto.
Qed.

Lemma at_label_bump (k : K) (acc : Series K nat) (k' : K) :
  at_label (bump k acc) k'
  = if eqk k' k
    then Some (S (match at_label acc k with Some n => n | None => 0 end))
    else at_label acc k'.
Proof.
  induction acc as [|[k0 n] acc IH]; simpl.
  - reflexivity.
  - destruct (eqk k k0) eqn:E; simpl.
    + apply eqk_eq in E. subst k0. eqk_cases.
    + rewrite IH. apply eqk_neq in E. eqk_cases.
Qed.

Lemma keys_bump (k : K) (acc : Series K nat) (k' : K) :
  In k' (map fst (bump k acc)) <-> k' = k \/ In k' (map fst acc).
Proof.
  induction acc as [|[k0 n] acc IH]; simpl.
  - intuition congruence.
  - destruct (eqk k k0) eqn:E; simpl.
    + apply eqk_eq in E. subst. intuition congruence.
    + rewrite IH. intuition congruence.
Qed.

Lemma NoDup_bump (k : K) (acc : Series K nat) :
  NoDup (map fst acc) -> NoDup (map fst (bump k acc)).
Proof.
  induction acc as [|[k0 n] acc IH]; simpl; intros ND.
  - constructor; [intros [] | constructor].
  - inversion ND as [|? ? Hnot ND']; subst.
    destruct (eqk k k0) eqn:E; simpl.
    + constructor; assumption.
    + apply eqk_neq in E. constructor; [|apply IH; exact ND'].
      rewrite keys_bump. intros [F | F]; [congruence | contradiction].
Qed.

Lemma total_count_bump (k : K) (acc : Series K nat) :
  total_count (bump k acc) = S (total_count acc).
Proof.
  induction acc as [|[k0 n] acc IH]; simpl; [reflexivity|].
  destruct (eqk k k0); simpl; [reflexivity | rewrite IH; lia].
Qed.

Lemma occurrences_cons (k k0 : K) (ks : list K) :
  occurrences k (k0 :: ks) = Nat.b2n (eqk k k0) + occurrences k ks.
Proof. unfold occurrences. simpl. destruct (eqk k k0); reflexivity. Qed.

(** The counting pass, from any accumulator. *)
Lemma at_label_fold_bump (ks : list K) (acc : Series K nat) (k : K) :
  at_label (fold_left (fun a x => bump x a) ks acc) k
  = match at_label acc k, occurrences k ks with
    | None, 0 => None
    | None, S n => Some (S n)
    | Some m, n => Some (m + n)
    end.
Proof.
  revert acc. induction ks as [|k0 ks IH]; intros acc; simpl.
  - unfold occurrences; simpl. destruct (at_label acc k); [f_equal; lia | reflexivity].
  - rewrite IH, at_label_bump, occurrences_cons.
    destruct (eqk k k0) eqn:E; simpl.
    + apply eqk_eq in E. subst k0.
      destruct (at_label acc k); simpl; f_equal; lia.
    + reflexivity.
Qed.

Lemma NoDup_fold_bump (ks : list K) (acc : Series K nat) :
  NoDup (map fst acc) -> NoDup (map fst (fold_left (fun a x => bump x a) ks acc)).
Proof.
  revert acc. induction ks as [|k0 ks IH]; intros acc ND; simpl.
  - exact ND.
  - apply IH. apply NoDup_bump. exact ND.
Qed.

Lemma total_count_fold_bump (ks : list K) (acc : Series K nat) :
  total_count (fold_left (fun a x => bump x a) ks acc)
  = total_count acc + List.length ks.
Proof.
  revert acc. induction ks as [|k0 ks IH]; intros acc; simpl.
  - lia.
  - rewrite IH, total_count_bump. lia.
Qed.

Lemma at_label_tally (ks : list K) (k : K) :
  at_label (tally ks) k
  = match occurrences k ks with
    | 0 => None
    | S n => Some (S n)
    end.
Proof. unfold tally. rewrite at_label_fold_bump. reflexivity. Qed.

Lemma NoDup_tally (ks : list K) : NoDup (map fst (tally ks)).
Proof. apply NoDup_fold_bump. constructor. Qed.

(** The sorting pass. *)
Lemma insert_desc_perm (x : K * nat) (l : Series K nat) :
  Permutation (insert_desc x l) (x :: l).
Proof.
  induction l as [|y l IH]; simpl.
  - apply Permutation_refl.
  - destruct (snd y <=? snd x).
    + apply Permutation_refl.
    + eapply perm_trans; [apply perm_skip; exact IH | apply perm_swap].
Qed.

Lemma sort_desc_perm (l : Series K nat) : Permutation (sort_desc l) l.
Proof.
  induction l as [|x l IH]; simpl.
  - apply perm_nil.
  - eapply perm_trans; [apply insert_desc_perm | apply perm_skip; exact IH].
Qed.

Lemma insert_desc_sorted (x : K * nat) (l : Series K nat) :
  desc_by_count l -> desc_by_count (insert_desc x l).
Proof.
  unfold desc_by_count.
  induction l as [|y l IH]; simpl; intros S.
  - constructor; constructor.
  - inversion S as [|? ? S' F]; subst.
    destruct (snd y <=? snd x) eqn:E.
    + apply Nat.leb_le in E. constructor; [exact S|].
      constructor; [exact E|].
      eapply Forall_impl; [|exact F]. simpl. intros z Hz. lia.
    + apply Nat.leb_gt in E. constructor; [apply IH; exact S'|].
      eapply Permutation_Forall;
        [apply Permutation_sym; apply insert_desc_perm|].
      constructor; [lia | exact F].
Qed.

Lemma sort_desc_sorted (l : Series K nat) : desc_by_count (sort_desc l).
Proof.
  induction l as [|x l IH]; simpl.
  - constructor.
  - apply insert_desc_sorted. exact IH.
Qed.

Lemma total_count_perm (s t : Series K nat) :
  Permutation s t -> total_count s = total_count t.
Proof.
  induction 1; simpl; lia.
Qed.

(** [value_counts] in one piece. *)
Lemma value_counts_perm (col : list (option K)) :
  Permutation (value_counts col) (tally (dropna col)).
Proof. apply sort_desc_perm. Qed.

Lemma value_counts_NoDup (col : list (option K)) :
  NoDup (map fst (value_counts col)).
Proof.
  eapply Permutation_NoDup;
    [apply Permutation_map; apply Permutation_sym; apply value_counts_perm|].
  apply NoDup_tally.
Qed.

Lemma value_counts_sorted (col : list (option K)) :
  desc_by_count (value_counts col).
Proof. apply sort_desc_sorted. Qed.

Lemma at_label_value_counts (col : list (option K)) (k : K) :
  at_label (value_counts col) k
  = match occurrences k (dropna col) with
    | 0 => None
    | S n => Some (S n)
    end.
Proof.
  rewrite <- at_label_tally.
  destruct (at_label (tally (dropna col)) k) as [v|] eqn:E.
  - apply at_label_In; [apply value_counts_NoDup|].
    apply at_label_In in E; [|apply NoDup_tally].
    eapply Permutation_in; [apply Permutation_sym; apply value_counts_perm | exact E].
  - apply at_label_None. apply at_label_None in E. intros F. apply E.
    eapply Permutation_in;
      [apply Permutation_map; apply value_counts_perm | exact F].
Qed.

Lemma value_counts_In (col : list (option K)) (k : K) (n : nat) :
  In (k, n) (value_counts col) <-> 0 < n /\ n = occurrences k (dropna col).
Proof.
  rewrite at_label_In by apply value_counts_NoDup.
  rewrite at_label_value_counts.
  destruct (occurrences k (dropna col)); split.
  - discriminate.
  - intros [? ?]; lia.
  - intros E; inversion E; lia.
  - intros [_ ->]. reflexivity.
Qed.

Lemma value_counts_total (col : list (option K)) :
  total_count (value_counts col) = List.length (dropna col).
Proof.
  rewrite (total_count_perm (value_counts_perm col)).
  unfold tally. rewrite total_count_fold_bump. reflexivity.
Qed.

End SeriesFacts.

(** ** Columns of the table *)

Section Columns.

Import Pandas App Spec.

Lemma eqk_string (a b : string) : eqk a b = String.eqb b a.
Proof.
  destruct (String.eqb b a) eqn:E.
  - apply String.eqb_eq in E. subst. apply eqk_refl.
  - apply String.eqb_neq in E. apply eqk_neq. congruence.
Qed.

(** Occurrences of a label in a column are the rows holding it. *)
Lemma occurrences_column (col : Row -> option string) (df : DataFrame) (l : string) :
  occurrences l (dropna (map col df)) = label_count col df l.
Proof.
  unfold occurrences, label_count, count_rows, cell_is.
  induction df as [|r df IH]; simpl; [reflexivity|].
  destruct (col r) as [s|]; simpl; [|exact IH].
  rewrite eqk_string. destruct (String.eqb s l); simpl; rewrite IH; reflexivity.
Qed.

Lemma count_rows_filter (p q : Row -> bool) (df : DataFrame) :
  count_rows q (filter p df) = count_rows (fun r => p r && q r) df.
Proof. unfold count_rows. rewrite filter_filter. reflexivity. Qed.

Lemma length_dropna_column {A} (col : Row -> option A) (df : DataFrame) :
  List.length (dropna (map col df)) = count_rows (fun r => is_present (col r)) df.
Proof.
  unfold count_rows.
  induction df as [|r df IH]; simpl; [reflexivity|].
  destruct (col r); simpl; rewrite IH; reflexivity.
Qed.

Lemma delayed_flag (df : DataFrame) : delayed df = filter Is_Delayed df.
Proof.
  unfold delayed. apply filter_ext. intros r. destruct (Is_Delayed r); reflexivity.
Qed.

Lemma cancelled_flag (df : DataFrame) : cancelled df = filter Is_Cancelled df.
Proof.
  unfold cancelled. apply filter_ext. intros r. destruct (Is_Cancelled r); reflexivity.
Qed.

(** The reason counts of the rows carrying a flag. *)
Lemma reasons_of_flagged (flag : Row -> bool) (df : DataFrame) :
  let out := value_counts (map Reason_for_Delay (filter flag df)) in
  (forall reason n, In (reason, n) out <-> 0 < n /\ n = reason_count flag df reason)
  /\ NoDup (map fst out)
  /\ desc_by_count out
  /\ total_count out
     = count_rows (fun r => flag r && is_present (Reason_for_Delay r)) df.
Proof.
  intros out. unfold out. split; [|split; [|split]].
  - intros reason n. rewrite value_counts_In, occurrences_column.
    unfold label_count, reason_count. rewrite count_rows_filter. reflexivity.
  - apply value_counts_NoDup.
  - apply value_counts_sorted.
  - rewrite value_counts_total, length_dropna_column, count_rows_filter.
    reflexivity.
Qed.

End Columns.

(** ** Prefixes of sorted series *)

Section Prefix.

Context {A : Type} (R : A -> A -> Prop).

Lemma StronglySorted_app_inv (l1 l2 : list A) :
  StronglySorted R (l1 ++ l2)%list ->
  StronglySorted R l1 /\ forall x y, In x l1 -> In y l2 -> R x y.
Proof.
  induction l1 as [|a l1 IH]; simpl; intros S.
  - split; [constructor | intros x y []].
  - inversion S as [|? ? S' F]; subst.
    destruct (IH S') as [S1 Hx]. apply Forall_app in F. destruct F as [F1 F2].
    split; [constructor; assumption|].
    intros x y [E | Hin] Hy.
    + subst. rewrite Forall_forall in F2. apply F2. exact Hy.
    + apply Hx; assumption.
Qed.

Lemma StronglySorted_firstn (n : nat) (l : list A) :
  StronglySorted R l -> StronglySorted R (firstn n l).
Proof.
  intros S. rewrite <- (firstn_skipn n l) in S.
  apply StronglySorted_app_inv in S. tauto.
Qed.

End Prefix.

Lemma In_firstn {A} (n : nat) (l : list A) (x : A) :
  In x (firstn n l) -> In x l.
Proof.
  intros F. rewrite <- (firstn_skipn n l). apply in_or_app. left. exact F.
Qed.

Lemma NoDup_firstn_keys {K V} (n : nat) (s : list (K * V)) :
  NoDup (map fst s) -> NoDup (map fst (firstn n s)).
Proof.
  intros ND. rewrite <- (firstn_skipn n s), map_app in ND.
  apply NoDup_app_remove_r in ND. exact ND.
Qed.

(** An entry of a series that is not among its first [n] is among the rest. *)
Lemma In_skipn_keys {K V} (n : nat) (s : list (K * V)) (k : K) (v : V) :
  In (k, v) s -> ~ In k (map fst (firstn n s)) -> In (k, v) (skipn n s).
Proof.
  intros Hin Hnot. rewrite <- (firstn_skipn n s) in Hin.
  apply in_app_or in Hin. destruct Hin as [F | F]; [|exact F].
  exfalso. apply Hnot. apply (in_map fst) in F. exact F.
Qed.

(** ** Popular routes *)

(** The first [m] entries of a ranking.  Whatever the order of ties, a
    series that lists each label once with its count, in descending order
    of count, has the labels with the highest counts in front. *)
Section Ranking.

Variable ranking : Pandas.Series string nat.
Variable count : string -> nat.
Variable m : nat.

Hypothesis ranking_In :
  forall l n, In (l, n) ranking <-> 0 < n /\ n = count l.
Hypothesis ranking_sorted : Spec.desc_by_count ranking.
Hypothesis ranking_NoDup : NoDup (map fst ranking).

Lemma head_of_ranking :
  List.length (Pandas.head m ranking) <= m
  /\ Spec.desc_by_count (Pandas.head m ranking)
  /\ NoDup (map fst (Pandas.head m ranking))
  /\ (forall l n, In (l, n) (Pandas.head m ranking) -> 0 < n /\ n = count l)
  /\ (forall l, ~ In l (map fst (Pandas.head m ranking)) ->
        (forall listed n, In (listed, n) (Pandas.head m ranking) -> count l <= n)
        /\ (0 < count l -> List.length (Pandas.head m ranking) = m)).
Proof.
  unfold Pandas.head.
  split; [apply firstn_le_length|].
  split; [apply StronglySorted_firstn; exact ranking_sorted|].
  split; [apply NoDup_firstn_keys; exact ranking_NoDup|].
  split.
  - intros l n F. apply ranking_In. apply In_firstn in F. exact F.
  - intros l Hout.
    destruct (count l) as [|c] eqn:Ecount.
    + split; [intros; lia | intros; lia].
    + assert (Hall : In (l, S c) ranking)
        by (apply ranking_In; split; [lia | congruence]).
      pose proof (In_skipn_keys m ranking l (S c) Hall Hout) as Hrest.
      split.
      * intros listed n F.
        pose proof ranking_sorted as S. unfold Spec.desc_by_count in S.
        rewrite <- (firstn_skipn m ranking) in S.
        apply StronglySorted_app_inv in S. destruct S as [_ Hcross].
        apply (Hcross _ _ F Hrest).
      * intros _. rewrite length_firstn.
        destruct (Nat.le_gt_cases m (List.length ranking)) as [G | G]; [lia|].
        rewrite skipn_all2 in Hrest by lia. destruct Hrest.
Qed.

End Ranking.

(** C10.  The popular-routes table has at most 10 entries, with distinct
    routes, each with its number of rows in the filtered table, in
    descending order of count.  They are the routes with the highest
    counts: a route left out has no more rows than any route listed, and
    a route that occurs is left out only when ten are listed.  The table
    is a function of the filtered table, so ties are broken the same way
    every time. *)
Theorem popular_routes_top10 (df : DataFrame) :
  List.length (App.popular_routes df) <= 10
  /\ Spec.desc_by_count (App.popular_routes df)
  /\ NoDup (map fst (App.popular_routes df))
  /\ (forall route n, In (route, n) (App.popular_routes df) ->
        0 < n /\ n = Spec.label_count Route df route)
  /\ (forall route, ~ In route (map fst (App.popular_routes df)) ->
        (forall listed n, In (listed, n) (App.popular_routes df) ->
           Spec.label_count Route df route <= n)
        /\ (0 < Spec.label_count Route df route ->
            List.length (App.popular_routes df) = 10)).
Proof.
  unfold App.popular_routes.
  apply (@head_of_ranking _ (Spec.label_count Route df) 10).
  - intros route n. rewrite value_counts_In, occurrences_column. reflexivity.
  - apply value_counts_sorted.
  - apply value_counts_NoDup.
Qed.

(** The worked scenario: two journeys on A-B, one on C-D. *)
Example popular_routes_scenario :
  App.popular_routes Sample.scenario = [("A-B", 2); ("C-D", 1)].
Proof. reflexivity. Qed.

(** ** Delay and cancellation reasons *)

(** C9.  The delay-reasons table lists exactly the reasons given on at
    least one delayed row, each once, with the number of delayed rows
    giving it; it is in descending order of count and has no cap.  Rows
    without a reason are in no count: the counts add up to the delayed
    rows that have a reason.  The cancellation-reasons table is the same
    with the cancelled flag in place of the delayed flag, and reads the
    same [Reason_for_Delay] column. *)
Theorem reasons_spec (df : DataFrame) :
  ((forall reason n, In (reason, n) (App.delayed_reasons df) <->
      0 < n /\ n = Spec.reason_count Is_Delayed df reason)
   /\ NoDup (map fst (App.delayed_reasons df))
   /\ Spec.desc_by_count (App.delayed_reasons df)
   /\ Spec.total_count (App.delayed_reasons df)
      = Spec.count_rows
          (fun r => Is_Delayed r && Spec.is_present (Reason_for_Delay r)) df)
  /\
  ((forall reason n, In (reason, n) (App.cancel_reasons df) <->
      0 < n /\ n = Spec.reason_count Is_Cancelled df reason)
   /\ NoDup (map fst (App.cancel_reasons df))
   /\ Spec.desc_by_count (App.cancel_reasons df)
   /\ Spec.total_count (App.cancel_reasons df)
      = Spec.count_rows
          (fun r => Is_Cancelled r && Spec.is_present (Reason_for_Delay r)) df).
Proof.
  unfold App.delayed_reasons, App.cancel_reasons.
  rewrite delayed_flag, cancelled_flag.
  split.
  - exact (reasons_of_flagged Is_Delayed df).
  - exact (reasons_of_flagged Is_Cancelled df).
Qed.

(** The worked scenario: one delayed journey, with a signal fault. *)
Example delayed_reasons_scenario :
  App.delayed_reasons Sample.scenario = [("Signal Fault", 1)].
Proof. reflexivity. Qed.

(** ** Journeys by day of week *)

(** C5, as stated, fails: on the empty table the seven entries hold no
    value (NaN), not 0. *)
Lemma day_counts_empty_counterexample :
  App.day_counts []
  = [("Sunday", None); ("Monday", None); ("Tuesday", None);
     ("Wednesday", None); ("Thursday", None); ("Friday", None);
     ("Saturday", None)]
  /\ ~ In ("Sunday", Some 0) (App.day_counts []).
Proof.
  split; [reflexivity|].
  simpl. intros F.
  repeat (destruct F as [F | F]; [discriminate F|]). exact F.
Qed.

(** C5, amended.  The day-of-week table has exactly 7 entries, in the
    order Sunday, Monday, ..., Saturday.  The entry of a weekday is the
    number of rows on that weekday when there is at least one, and a
    missing value when there is none; on the empty table all seven are
    missing. *)
Theorem day_counts_spec (df : DataFrame) :
  App.day_counts df
  = map (fun d => (d, match Spec.label_count Day_of_Week df d with
                      | 0 => None
                      | S n => Some (S n)
                      end))
        ["Sunday"; "Monday"; "Tuesday"; "Wednesday"; "Thursday"; "Friday";
         "Saturday"]
  /\ List.length (App.day_counts df) = 7
  /\ map fst (App.day_counts df)
     = ["Sunday"; "Monday"; "Tuesday"; "Wednesday"; "Thursday"; "Friday";
        "Saturday"]
  /\ map snd (App.day_counts []) = repeat None 7.
Proof.
  assert (E : App.day_counts df
              = map (fun d => (d, match Spec.label_count Day_of_Week df d with
                                  | 0 => None
                                  | S n => Some (S n)
                                  end)) App.weekdays).
  { unfold App.day_counts, Pandas.reindex. apply map_ext. intros d.
    rewrite at_label_value_counts, occurrences_column. reflexivity. }
  split; [exact E|].
  split; [rewrite E; reflexivity|].
  split; [rewrite E; reflexivity | reflexivity].
Qed.

(** ** Groups: sorted keys, one aggregate per key *)

Section GroupFacts.

Import Pandas Spec.

Context {K : Type} {C : Compare K} {L : CompareLaws K}.

Lemma ascending_NoDup (l : list K) : ascending l -> NoDup l.
Proof.
  unfold ascending. induction 1 as [|a l S IH F]; constructor; [|exact IH].
  intros Hin. rewrite Forall_forall in F. specialize (F a Hin).
  rewrite cmp_refl in F. discriminate.
Qed.

Lemma ascending_head_absent (k k0 : K) (l : list K) :
  ascending (k0 :: l) -> cmp k k0 = Lt -> ~ In k (k0 :: l).
Proof.
  intros S E [F | F].
  - subst. rewrite cmp_refl in E. discriminate.
  - inversion S as [|? ? _ G]; subst. rewrite Forall_forall in G.
    pose proof (cmp_trans _ _ _ E (G k F)) as T.
    rewrite cmp_refl in T. discriminate.
Qed.

Lemma keys_upsert {V} (k : K) (f : option V -> V) (acc : Series K V) (k' : K) :
  In k' (map fst (upsert k f acc)) <-> k' = k \/ In k' (map fst acc).
Proof.
  induction acc as [|[k0 v0] acc IH]; simpl.
  - intuition congruence.
  - destruct (cmp k k0) eqn:E; simpl.
    + apply cmp_eq in E. subst. intuition congruence.
    + intuition congruence.
    + rewrite IH. intuition congruence.
Qed.

Lemma upsert_ascending {V} (k : K) (f : option V -> V) (acc : Series K V) :
  ascending (map fst acc) -> ascending (map fst (upsert k f acc)).
Proof.
  unfold ascending.
  induction acc as [|[k0 v0] acc IH]; simpl; intros S.
  - constructor; constructor.
  - inversion S as [|? ? S' F]; subst.
    destruct (cmp k k0) eqn:E; simpl.
    + exact S.
    + constructor; [exact S|]. constructor; [exact E|].
      eapply Forall_impl; [|exact F]. intros z Hz. simpl in Hz.
      eapply cmp_trans; eassumption.
    + constructor; [apply IH; exact S'|].
      apply Forall_forall. intros z Hz. apply keys_upsert in Hz.
      destruct Hz as [-> | Hz].
      * apply cmp_gt_lt. exact E.
      * rewrite Forall_forall in F. apply F. exact Hz.
Qed.

Lemma at_label_upsert {V} (k : K) (f : option V -> V) (acc : Series K V) (k' : K) :
  ascending (map fst acc) ->
  at_label (upsert k f acc) k'
  = if eqk k' k then Some (f (at_label acc k)) else at_label acc k'.
Proof.
  induction acc as [|[k0 v0] acc IH]; simpl; intros S.
  - reflexivity.
  - destruct (cmp k k0) eqn:E; simpl.
    + assert (Ek : eqk k k0 = true) by (unfold eqk; rewrite E; reflexivity).
      rewrite Ek. apply eqk_eq in Ek. subst k0. eqk_cases.
    + assert (Ek : eqk k k0 = false) by (unfold eqk; rewrite E; reflexivity).
      rewrite Ek.
      assert (N : at_label acc k = None).
      { apply at_label_None. intros F.
        apply (ascending_head_absent S E). right. exact F. }
      rewrite N. apply eqk_neq in Ek. eqk_cases.
    + assert (Ek : eqk k k0 = false) by (unfold eqk; rewrite E; reflexivity).
      rewrite Ek. rewrite IH by (inversion S; assumption).
      apply eqk_neq in Ek. eqk_cases.
Qed.

Lemma values_of_cons {X} (k : K) (kx : K * X) (rows : list (K * X)) :
  values_of k (kx :: rows)
  = if eqk k (fst kx) then snd kx :: values_of k rows else values_of k rows.
Proof. unfold values_of. simpl. destruct (eqk k (fst kx)); reflexivity. Qed.

(** The grouping pass, from any sorted accumulator. *)
Lemma fold_upsert {X V} (step : option V -> X -> V) (rows : list (K * X))
    (acc : Series K V) :
  ascending (map fst acc) ->
  let out := fold_left
               (fun a kx => upsert (fst kx) (fun o => step o (snd kx)) a)
               rows acc in
  ascending (map fst out)
  /\ (forall k, at_label out k = fold_group step (values_of k rows) (at_label acc k))
  /\ (forall k, In k (map fst out) <-> In k (map fst rows) \/ In k (map fst acc)).
Proof.
  revert acc. induction rows as [|[k0 x] rows IH]; intros acc S; simpl.
  - split; [exact S|]. split; [reflexivity | tauto].
  - specialize (IH _ (upsert_ascending k0 (fun o => step o x) acc S)).
    simpl in IH. destruct IH as [S' [Hat Hkeys]].
    split; [exact S'|]. split.
    + intros k. rewrite Hat, values_of_cons, at_label_upsert by exact S.
      simpl. destruct (eqk k k0) eqn:E; [|reflexivity].
      apply eqk_eq in E. subst. reflexivity.
    + intros k. rewrite Hkeys, keys_upsert. intuition congruence.
Qed.

Lemma groupby_agg_spec {X V} (step : option V -> X -> V) (rows : list (K * X)) :
  ascending (map fst (groupby_agg step rows))
  /\ (forall k, at_label (groupby_agg step rows) k
                = fold_group step (values_of k rows) None)
  /\ (forall k, In k (map fst (groupby_agg step rows)) <-> In k (map fst rows)).
Proof.
  destruct (@fold_upsert X V step rows [] (SSorted_nil _)) as [S [Hat Hkeys]].
  split; [exact S|]. split; [exact Hat|].
  intros k. unfold groupby_agg. rewrite Hkeys. simpl. tauto.
Qed.

(** Counting a group. *)
Lemma fold_group_count {X} (xs : list X) (o : option nat) :
  fold_group count_step xs o
  = match o, xs with
    | None, [] => None
    | None, _ :: _ => Some (List.length xs)
    | Some n, _ => Some (n + List.length xs)
    end.
Proof.
  revert o. induction xs as [|x xs IH]; intros o; simpl.
  - destruct o; [f_equal; lia | reflexivity].
  - unfold fold_group in *. simpl. rewrite IH.
    destruct o; simpl; f_equal; lia.
Qed.

Lemma values_of_keys (k : K) (ks : list K) :
  List.length (values_of k (map (fun x => (x, tt)) ks)) = occurrences k ks.
Proof.
  unfold values_of, occurrences. rewrite length_map.
  induction ks as [|k0 ks IH]; simpl; [reflexivity|].
  destruct (eqk k k0); simpl; rewrite IH; reflexivity.
Qed.

Lemma at_label_groupby_size (col : list (option K)) (k : K) :
  at_label (groupby_size col) k
  = match occurrences k (dropna col) with
    | 0 => None
    | S n => Some (S n)
    end.
Proof.
  unfold groupby_size.
  destruct (groupby_agg_spec (@count_step unit)
              (map (fun x => (x, tt)) (dropna col))) as [_ [Hat _]].
  rewrite Hat, fold_group_count, <- values_of_keys.
  destruct (values_of k (map (fun x => (x, tt)) (dropna col))); reflexivity.
Qed.

Lemma groupby_size_ascending (col : list (option K)) :
  ascending (map fst (groupby_size col)).
Proof. unfold groupby_size. apply groupby_agg_spec. Qed.

Lemma groupby_size_In (col : list (option K)) (k : K) (n : nat) :
  In (k, n) (groupby_size col) <-> 0 < n /\ n = occurrences k (dropna col).
Proof.
  rewrite at_label_In by (apply ascending_NoDup; apply groupby_size_ascending).
  rewrite at_label_groupby_size.
  destruct (occurrences k (dropna col)); split.
  - discriminate.
  - intros [? ?]; lia.
  - intros E; inversion E; lia.
  - intros [_ ->]. reflexivity.
Qed.


End GroupFacts.

(** ** Journeys by hour *)

(** The reading of hour labels: midnight first, noon in the middle. *)
Example hour_of_label_samples :
  map Spec.hour_of_label ["12 AM"; "9 AM"; "10 AM"; "12 PM"; "1 PM"; "11 PM"; "noon"]
  = [Some 0; Some 9; Some 10; Some 12; Some 13; Some 23; None].
Proof. reflexivity. Qed.

(** C6, as stated, fails: with one journey at "9 AM" and one at "10 AM"
    the table lists "10 AM" first, which is not chronological. *)
Lemma hour_counts_counterexample :
  App.hour_counts [Sample.at_hour "9 AM"; Sample.at_hour "10 AM"]
  = [("10 AM", 1); ("9 AM", 1)]
  /\ ~ Spec.chronological
         (map fst (App.hour_counts [Sample.at_hour "9 AM"; Sample.at_hour "10 AM"])).
Proof.
  split; [reflexivity|].
  change (map fst (App.hour_counts [Sample.at_hour "9 AM"; Sample.at_hour "10 AM"]))
    with ["10 AM"; "9 AM"].
  intros S. inversion S as [|? ? _ F]; subst.
  inversion F as [|? ? E _]; subst.
  unfold Spec.earlier in E. simpl in E. lia.
Qed.

(** C6, amended.  The by-hour table lists exactly the hour labels that
    occur, each once with its number of rows, in strictly ascending order
    of the labels as text (character by character), not in chronological
    order: "10 AM" comes before "9 AM". *)
Theorem hour_counts_label_order (df : DataFrame) :
  Spec.ascending (map fst (App.hour_counts df))
  /\ (forall h n, In (h, n) (App.hour_counts df) <->
        0 < n /\ n = Spec.label_count Hour_AM_PM df h)
  /\ cmp "10 AM" "9 AM" = Lt.
Proof.
  unfold App.hour_counts.
  split; [apply groupby_size_ascending|].
  split; [|reflexivity].
  intros h n. rewrite groupby_size_In, occurrences_column. reflexivity.
Qed.

(** ** The empty table *)



(** ** The revenue pivot *)

(** Series with distinct keys, under a change or a selection of values. *)
Section SeriesValues.

Import Pandas Spec.

Context {K : Type} {C : Compare K} {L : CompareLaws K}.

Lemma keys_map_values {V W} (f : V -> W) (s : Series K V) :
  map fst (map (fun g => (fst g, f (snd g))) s) = map fst s.
Proof. rewrite map_map. apply map_ext. intros [k v]. reflexivity. Qed.


Lemma keys_filter_incl {V} (p : K * V -> bool) (s : Series K V) (k : K) :
  In k (map fst (filter p s)) -> In k (map fst s).
Proof.
  rewrite !in_map_iff. intros [g [E F]]. apply filter_In in F.
  exists g. tauto.
Qed.

Lemma NoDup_keys_filter {V} (p : K * V -> bool) (s : Series K V) :
  NoDup (map fst s) -> NoDup (map fst (filter p s)).
Proof.
  induction s as [|g s IH]; simpl; intros ND; [constructor|].
  inversion ND as [|? ? Hnot ND']; subst.
  destruct (p g); simpl; [|apply IH; exact ND'].
  constructor; [|apply IH; exact ND'].
  intros F. apply Hnot. eapply keys_filter_incl. exact F.
Qed.



End SeriesValues.

Section Pivot.

Import Pandas App Spec.

Context {np : Numpy}.











(** The aggregated groups. *)
Lemma agg_sum_NoDup (df : DataFrame) :
  NoDup (map fst
           (agg_sum (map (fun r => (Ticket_Type r, Ticket_Class r, Price r)) df))).
Proof.
  unfold agg_sum. apply NoDup_keys_filter. rewrite keys_map_values.
  apply ascending_NoDup. apply groupby_agg_spec.
Qed.








End Pivot.

(** ** Sums over the cells of a grid *)

Section CellSums.

Import Pandas App Spec.

Local Open Scope Z_scope.








Local Close Scope Z_scope.



End CellSums.



(** Two ticket types, two classes, one pair without a row: the pivot has
    two holes, its cells are float64. *)
Example revenue_pivot_sample :
  forall np : Pandas.Numpy,
    @App.revenue_pivot np
      [Sample.ticket (Some "Advance") (Some "Standard") 5;
       Sample.ticket (Some "Anytime") (Some "First Class") 7;
       Sample.ticket (Some "Advance") (Some "Standard") 1]
    = Pandas.mkTable
        ["Advance"; "Anytime"] ["First Class"; "Standard"]
        [[Pandas.VFloat 0%float; Pandas.VFloat 6%float];
         [Pandas.VFloat 7%float; Pandas.VFloat 0%float]].
Proof. intros np. vm_compute. reflexivity. Qed.

(** Float64 prices, added from left to right: 1.5 + 2.25 for one pair, 4
    for the other; no hole. *)
Example revenue_pivot_float_sample :
  @App.revenue_pivot Sample.left_to_right
    [Sample.fare (Some "Advance") (Some "Standard") 1.5%float;
     Sample.fare (Some "Anytime") (Some "Standard") 4%float;
     Sample.fare (Some "Advance") (Some "Standard") 2.25%float]
  = Pandas.mkTable
      ["Advance"; "Anytime"] ["Standard"]
      [[Pandas.VFloat 3.75%float]; [Pandas.VFloat 4%float]].
Proof. vm_compute. reflexivity. Qed.

(** A group whose sum is NaN, here an infinite price and its opposite,
    is dropped, and its labels with it. *)
Example revenue_pivot_nan_group :
  @App.revenue_pivot Sample.left_to_right
    [Sample.fare (Some "Advance") (Some "Standard") infinity;
     Sample.fare (Some "Advance") (Some "Standard") neg_infinity;
     Sample.fare (Some "Anytime") (Some "Standard") 4%float]
  = Pandas.mkTable ["Anytime"] ["Standard"] [[Pandas.VFloat 4%float]].
Proof. vm_compute. reflexivity. Qed.

(** * Further properties of the script *)

(** ** The filter step as an operation on tables *)

Section FilterAlgebra.

Import Pandas App Spec.

Lemma Subseq_filter_impl {A} (p q : A -> bool) (l : list A) :
  (forall x, In x l -> p x = true -> q x = true) ->
  Subseq (filter p l) (filter q l).
Proof.
  induction l as [|x l IH]; simpl; intros H.
  - constructor.
  - assert (IH' : Subseq (filter p l) (filter q l))
      by (apply IH; intros y Hy; apply H; right; exact Hy).
    destruct (p x) eqn:Ep.
    + rewrite (H x (or_introl eq_refl) Ep). apply Subseq_keep. exact IH'.
    + destruct (q x); [apply Subseq_skip|]; exact IH'.
Qed.

Lemma filter_idem {A} (p : A -> bool) (l : list A) :
  filter p (filter p l) = filter p l.
Proof.
  rewrite filter_filter. apply filter_ext. intros x. destruct (p x); reflexivity.
Qed.

Lemma label_count_pos (col : Row -> option string) (df : DataFrame)
    (r : Row) (s : string) :
  In r df -> col r = Some s -> 0 < label_count col df s.
Proof.
  unfold label_count, count_rows. intros Hin Hs.
  assert (F : In r (filter (fun r0 => cell_is s (col r0)) df)).
  { apply filter_In. split; [exact Hin|]. rewrite Hs. simpl. apply String.eqb_refl. }
  destruct (filter (fun r0 => cell_is s (col r0)) df); [destruct F | simpl; lia].
Qed.

Lemma label_count_pos_inv (col : Row -> option string) (df : DataFrame) (s : string) :
  0 < label_count col df s -> exists r, In r df /\ col r = Some s.
Proof.
  unfold label_count, count_rows. intros H.
  destruct (filter (fun r0 => cell_is s (col r0)) df) as [|r rest] eqn:E;
    [simpl in H; lia|].
  assert (F : In r (filter (fun r0 => cell_is s (col r0)) df))
    by (rewrite E; left; reflexivity).
  apply filter_In in F. destruct F as [Hin Hc]. exists r. split; [exact Hin|].
  unfold cell_is in Hc. destruct (col r) as [s'|]; [|discriminate].
  apply String.eqb_eq in Hc. congruence.
Qed.

Lemma dim_okb_nothing (col : Row -> option string) (selected : list string)
    (df : DataFrame) (r : Row) :
  matches_nothing col selected df -> In r df -> dim_okb selected (col r) = false.
Proof.
  intros [Hall Hnone] Hin. unfold dim_okb.
  destruct (contains "All" selected) eqn:E.
  - apply contains_In in E. contradiction.
  - simpl. destruct (isin selected (col r)) eqn:F; [|reflexivity].
    apply isin_spec in F. destruct F as [s [Hs Hsel]].
    pose proof (label_count_pos col df r Hin Hs) as P.
    rewrite (Hnone s Hsel) in P. lia.
Qed.

Lemma dim_ok_incl (sel sel' : list string) (cell : option string) :
  incl sel sel' -> dim_okb sel cell = true -> dim_okb sel' cell = true.
Proof.
  intros Hincl. rewrite !dim_okb_spec. unfold dim_ok.
  intros [H | [s [E H]]]; [left | right; exists s; split; [exact E|]];
    apply Hincl; exact H.
Qed.

End FilterAlgebra.

(** X1.  Filtering is idempotent: applying the same selection to the
    filtered table gives the filtered table again. *)
Theorem filtered_df_idempotent (df : DataFrame) (c : Selection) :
  List.length (date_range c) <> 1 ->
  exists out,
    App.filtered_df df c = Py.Ok out /\ App.filtered_df out c = Py.Ok out.
Proof.
  intros H. exists (filter (Spec.satisfiesb c) df).
  rewrite !filtered_df_mask by exact H.
  split; [reflexivity|]. rewrite filter_idem. reflexivity.
Qed.

Lemma filtered_df_idempotent_witness :
  exists out,
    App.filtered_df Sample.week (mkSelection [1; 5]%Z ["9 AM"] ["All"] ["All"] ["All"])
    = Py.Ok out
    /\ App.filtered_df out (mkSelection [1; 5]%Z ["9 AM"] ["All"] ["All"] ["All"])
       = Py.Ok out.
Proof.
  apply (filtered_df_idempotent Sample.week
           (mkSelection [1; 5]%Z ["9 AM"] ["All"] ["All"] ["All"])).
  simpl. lia.
Defined.

(** X2.  Filtering works row by row: the filtered concatenation of two
    tables is the concatenation of the two filtered tables. *)
Theorem filtered_df_app (df1 df2 : DataFrame) (c : Selection) :
  List.length (date_range c) <> 1 ->
  exists out1 out2,
    App.filtered_df df1 c = Py.Ok out1
    /\ App.filtered_df df2 c = Py.Ok out2
    /\ App.filtered_df (df1 ++ df2)%list c = Py.Ok (out1 ++ out2)%list.
Proof.
  intros H. exists (filter (Spec.satisfiesb c) df1), (filter (Spec.satisfiesb c) df2).
  rewrite !filtered_df_mask by exact H.
  split; [reflexivity|]. split; [reflexivity|].
  rewrite filter_app. reflexivity.
Qed.

Lemma filtered_df_app_witness :
  exists out1 out2,
    App.filtered_df Sample.week (Sample.all_selection [1; 5]%Z) = Py.Ok out1
    /\ App.filtered_df Sample.scenario (Sample.all_selection [1; 5]%Z) = Py.Ok out2
    /\ App.filtered_df (Sample.week ++ Sample.scenario)%list
                       (Sample.all_selection [1; 5]%Z)
       = Py.Ok (out1 ++ out2)%list.
Proof.
  apply (filtered_df_app Sample.week Sample.scenario (Sample.all_selection [1; 5]%Z)).
  simpl. lia.
Defined.

(** X3.  A dimension whose selection has no sentinel and no label that
    occurs in the table -- an emptied multiselect included -- empties the
    result; nothing is raised. *)
Theorem selection_matching_nothing (df : DataFrame) (c : Selection) :
  List.length (date_range c) <> 1 ->
  Spec.matches_nothing Hour_AM_PM (selected_hours c) df
  \/ Spec.matches_nothing Day_of_Week (selected_days c) df
  \/ Spec.matches_nothing Departure_Station (selected_departures c) df
  \/ Spec.matches_nothing Arrival_Destination (selected_arrivals c) df ->
  App.filtered_df df c = Py.Ok [].
Proof.
  intros H Hdead. rewrite filtered_df_mask by exact H.
  f_equal. apply filter_none. intros r Hin. unfold Spec.satisfiesb.
  destruct Hdead as [D | [D | [D | D]]];
    rewrite (@dim_okb_nothing _ _ _ r D Hin); rewrite ?andb_false_r; reflexivity.
Qed.

Lemma selection_matching_nothing_witness :
  App.filtered_df Sample.week (mkSelection [1; 9]%Z ["All"] ["All"] [] ["All"])
  = Py.Ok [].
Proof.
  apply (@selection_matching_nothing Sample.week
           (mkSelection [1; 9]%Z ["All"] ["All"] [] ["All"])).
  - simpl. lia.
  - right. right. left. split.
    + simpl. tauto.
    + intros s F. destruct F.
Defined.

(** X4.  Widening the selections never loses a row: when every selection
    of [c] is within the matching selection of [c'] and the dates are the
    same, the table filtered by [c] is the table filtered by [c'] with
    rows dropped. *)
Theorem widening_keeps_rows (df : DataFrame) (c c' : Selection) :
  List.length (date_range c) <> 1 ->
  Spec.narrower c c' ->
  exists out out',
    App.filtered_df df c = Py.Ok out
    /\ App.filtered_df df c' = Py.Ok out'
    /\ Subseq out out'.
Proof.
  intros H [Hd [Hh [Hy [Hp Ha]]]].
  exists (filter (Spec.satisfiesb c) df), (filter (Spec.satisfiesb c') df).
  rewrite filtered_df_mask by exact H.
  rewrite filtered_df_mask by (rewrite <- Hd; exact H).
  split; [reflexivity|]. split; [reflexivity|].
  apply Subseq_filter_impl. intros r _. unfold Spec.satisfiesb.
  rewrite !andb_true_iff. intros [[[[D1 D2] D3] D4] D5].
  repeat split.
  - unfold Spec.date_okb in *. rewrite <- Hd. exact D1.
  - apply (@dim_ok_incl _ _ _ Hh D2).
  - apply (@dim_ok_incl _ _ _ Hy D3).
  - apply (@dim_ok_incl _ _ _ Hp D4).
  - apply (@dim_ok_incl _ _ _ Ha D5).
Qed.

Lemma widening_keeps_rows_witness :
  exists out out',
    App.filtered_df Sample.week (mkSelection [1; 9]%Z ["9 AM"] ["All"] ["York"] ["All"])
    = Py.Ok out
    /\ App.filtered_df Sample.week
         (mkSelection [1; 9]%Z ["9 AM"; "10 AM"] ["All"] ["York"; "Leeds"] ["All"])
       = Py.Ok out'
    /\ Subseq out out'.
Proof.
  apply (@widening_keeps_rows Sample.week
           (mkSelection [1; 9]%Z ["9 AM"] ["All"] ["York"] ["All"])
           (mkSelection [1; 9]%Z ["9 AM"; "10 AM"] ["All"] ["York"; "Leeds"] ["All"])).
  - simpl. lia.
  - unfold Spec.narrower. simpl. repeat split.
    + intros s [<- | []]. simpl. tauto.
    + intros s F. exact F.
    + intros s [<- | []]. simpl. tauto.
    + intros s F. exact F.
Defined.

(** ** The side bar: date bounds and option lists *)

Section DateBounds.

Import Pandas App Spec.

Lemma fold_min_le (rest : list Z) (d : Z) :
  (fold_left Z.min rest d <= d)%Z
  /\ forall x, In x rest -> (fold_left Z.min rest d <= x)%Z.
Proof.
  revert d. induction rest as [|y rest IH]; intros d; simpl.
  - split; [lia | intros x []].
  - destruct (IH (Z.min d y)) as [H1 H2]. split; [lia|].
    intros x [<- | Hx]; [lia | apply H2; exact Hx].
Qed.

Lemma fold_max_ge (rest : list Z) (d : Z) :
  (d <= fold_left Z.max rest d)%Z
  /\ forall x, In x rest -> (x <= fold_left Z.max rest d)%Z.
Proof.
  revert d. induction rest as [|y rest IH]; intros d; simpl.
  - split; [lia | intros x []].
  - destruct (IH (Z.max d y)) as [H1 H2]. split; [lia|].
    intros x [<- | Hx]; [lia | apply H2; exact Hx].
Qed.

Lemma col_min_le (col : list (option Z)) (lo d : Z) :
  col_min col = Some lo -> In d (dropna col) -> (lo <= d)%Z.
Proof.
  unfold col_min. destruct (dropna col) as [|d0 rest]; [discriminate|].
  intros E Hin. inversion E; subst lo.
  destruct (fold_min_le rest d0) as [H1 H2].
  destruct Hin as [<- | Hin]; [exact H1 | apply H2; exact Hin].
Qed.

Lemma col_max_ge (col : list (option Z)) (hi d : Z) :
  col_max col = Some hi -> In d (dropna col) -> (d <= hi)%Z.
Proof.
  unfold col_max. destruct (dropna col) as [|d0 rest]; [discriminate|].
  intros E Hin. inversion E; subst hi.
  destruct (fold_max_ge rest d0) as [H1 H2].
  destruct Hin as [<- | Hin]; [exact H1 | apply H2; exact Hin].
Qed.

Lemma In_dropna {A} (col : Row -> option A) (df : DataFrame) (a : A) :
  In a (dropna (map col df)) <-> exists r, In r df /\ col r = Some a.
Proof.
  induction df as [|r df IH]; simpl.
  - split; [intros [] | intros [r [[] _]]].
  - destruct (col r) as [a'|] eqn:E; simpl; rewrite IH; split.
    + intros [<- | [r' [H1 H2]]]; [exists r; auto | exists r'; auto].
    + intros [r' [[<- | H1] H2]]; [left; congruence | right; exists r'; auto].
    + intros [r' [H1 H2]]. exists r'; auto.
    + intros [r' [[<- | H1] H2]]; [congruence | exists r'; auto].
Qed.

Lemma default_mask (df : DataFrame) (lo hi : Z) (r : Row) :
  min_date df = Some lo -> max_date df = Some hi -> In r df ->
  satisfiesb (default_selection lo hi) r = has_date r.
Proof.
  intros Hlo Hhi Hin. unfold satisfiesb, date_okb, has_date, is_present. simpl.
  rewrite !andb_true_r.
  destruct (Date_of_Journey r) as [d|] eqn:E; [|reflexivity].
  assert (Hd : In d (dropna (map Date_of_Journey df)))
    by (apply In_dropna; exists r; auto).
  pose proof (@col_min_le _ lo d Hlo Hd). pose proof (@col_max_ge _ hi d Hhi Hd).
  apply andb_true_iff. rewrite !Z.leb_le. lia.
Qed.

End DateBounds.

(** X5.  With the widgets left at their defaults -- the date range from
    the first to the last date of the table, every multiselect on "All"
    -- the filter step keeps exactly the rows that have a date, so the
    whole table when no date is missing. *)
Theorem default_selection_keeps_dated_rows (df : DataFrame) (lo hi : Z) :
  App.min_date df = Some lo ->
  App.max_date df = Some hi ->
  App.filtered_df df (App.default_selection lo hi)
  = Py.Ok (filter Spec.has_date df)
  /\ ((forall r, In r df -> Spec.has_date r = true) ->
      App.filtered_df df (App.default_selection lo hi) = Py.Ok df).
Proof.
  intros Hlo Hhi.
  assert (E : App.filtered_df df (App.default_selection lo hi)
              = Py.Ok (filter Spec.has_date df)).
  { rewrite filtered_df_mask by (simpl; lia). f_equal.
    apply filter_ext_in. intros r Hin. apply (@default_mask df lo hi r Hlo Hhi Hin). }
  split; [exact E|].
  intros Hall. rewrite E, (@filter_all _ Spec.has_date df Hall). reflexivity.
Qed.

Lemma default_selection_keeps_dated_rows_witness :
  App.filtered_df Sample.week (App.default_selection 1 9)
  = Py.Ok (filter Spec.has_date Sample.week)
  /\ ((forall r, In r Sample.week -> Spec.has_date r = true) ->
      App.filtered_df Sample.week (App.default_selection 1 9) = Py.Ok Sample.week).
Proof.
  apply (@default_selection_keeps_dated_rows Sample.week 1%Z 9%Z); reflexivity.
Defined.

Section Distinct.

Import Pandas Spec.

Context {K : Type} {C : Compare K} {L : CompareLaws K}.

Lemma existsb_eqk (x : K) (l : list K) :
  existsb (eqk x) l = true <-> In x l.
Proof.
  rewrite existsb_exists. split.
  - intros [y [Hy E]]. apply eqk_eq in E. subst. exact Hy.
  - intros H. exists x. split; [exact H | apply eqk_refl].
Qed.

(** The pass of [unique], from any list of values already seen. *)
Lemma unique_fold (l seen : list K) :
  NoDup seen ->
  let out := fold_left
               (fun seen x => if existsb (eqk x) seen then seen else seen ++ [x])%list
               l seen in
  NoDup out
  /\ (forall x, In x out <-> In x seen \/ In x l)
  /\ exists more, out = (seen ++ more)%list.
Proof.
  revert seen. induction l as [|y l IH]; intros seen ND; simpl.
  - split; [exact ND|]. split; [tauto|]. exists []. symmetry. apply app_nil_r.
  - destruct (existsb (eqk y) seen) eqn:E.
    + apply existsb_eqk in E.
      destruct (IH seen ND) as [N [M P]]. split; [exact N|]. split; [|exact P].
      intros x. rewrite M. intuition congruence.
    + assert (Hy : ~ In y seen).
      { intros F. apply existsb_eqk in F. congruence. }
      assert (ND' : NoDup (seen ++ [y])%list).
      { apply NoDup_app; [exact ND | constructor; [intros [] | constructor] |].
        intros x Hx [<- | []]. apply Hy. exact Hx. }
      destruct (IH _ ND') as [N [M [more P]]]. split; [exact N|]. split.
      * intros x. rewrite M, in_app_iff. simpl. intuition congruence.
      * exists (y :: more). rewrite P, <- app_assoc. reflexivity.
Qed.

Lemma unique_NoDup (l : list K) : NoDup (unique l).
Proof. apply (unique_fold l (NoDup_nil K)). Qed.

Lemma unique_In (l : list K) (x : K) : In x (unique l) <-> In x l.
Proof.
  destruct (unique_fold l (NoDup_nil K)) as [_ [M _]].
  unfold unique. rewrite M. simpl. tauto.
Qed.

Lemma unique_app (l1 l2 : list K) :
  exists more, unique (l1 ++ l2) = (unique l1 ++ more)%list.
Proof.
  unfold unique. rewrite fold_left_app.
  apply (unique_fold l2 (unique_NoDup l1)).
Qed.

(** [sorted]. *)
Lemma insert_asc_perm (x : K) (l : list K) :
  Permutation (insert_asc x l) (x :: l).
Proof.
  induction l as [|y l IH]; simpl; [apply Permutation_refl|].
  destruct (cmp x y); try apply Permutation_refl.
  eapply perm_trans; [apply perm_skip; exact IH | apply perm_swap].
Qed.

Lemma sorted_perm (l : list K) : Permutation (sorted l) l.
Proof.
  induction l as [|x l IH]; simpl; [apply perm_nil|].
  eapply perm_trans; [apply insert_asc_perm | apply perm_skip; exact IH].
Qed.

Lemma sorted_In (l : list K) (x : K) : In x (sorted l) <-> In x l.
Proof.
  split; intros F.
  - eapply Permutation_in; [apply sorted_perm | exact F].
  - eapply Permutation_in; [apply Permutation_sym; apply sorted_perm | exact F].
Qed.

Lemma insert_asc_ascending (x : K) (l : list K) :
  ascending l -> ~ In x l -> ascending (insert_asc x l).
Proof.
  unfold ascending. induction l as [|y l IH]; simpl; intros S N.
  - constructor; constructor.
  - inversion S as [|? ? S' F]; subst.
    destruct (cmp x y) eqn:E.
    + apply cmp_eq in E. subst. exfalso. apply N. left. reflexivity.
    + constructor; [exact S|]. constructor; [exact E|].
      eapply Forall_impl; [|exact F]. intros z Hz. simpl in Hz.
      eapply cmp_trans; eassumption.
    + constructor; [apply IH; [exact S' | intros G; apply N; right; exact G]|].
      eapply Permutation_Forall;
        [apply Permutation_sym; apply insert_asc_perm|].
      constructor; [apply cmp_gt_lt; exact E | exact F].
Qed.

Lemma sorted_ascending (l : list K) : NoDup l -> ascending (sorted l).
Proof.
  induction l as [|x l IH]; simpl; intros ND.
  - constructor.
  - inversion ND as [|? ? N ND']; subst.
    apply insert_asc_ascending; [apply IH; exact ND'|].
    intros F. apply N. eapply Permutation_in; [apply sorted_perm | exact F].
Qed.

(** Two strictly ascending lists with the same elements are the same
    list. *)
Lemma ascending_unique (l1 l2 : list K) :
  ascending l1 -> ascending l2 -> (forall x, In x l1 <-> In x l2) -> l1 = l2.
Proof.
  unfold ascending. revert l2.
  induction l1 as [|a l1 IH]; intros l2 S1 S2 M.
  - destruct l2 as [|b l2]; [reflexivity|].
    exfalso. apply (M b). left. reflexivity.
  - destruct l2 as [|b l2]; [exfalso; apply (M a); left; reflexivity|].
    inversion S1 as [|? ? S1' F1]; subst. inversion S2 as [|? ? S2' F2]; subst.
    rewrite Forall_forall in F1, F2.
    assert (E : a = b).
    { destruct (proj1 (M a) (or_introl eq_refl)) as [Hb | Hb]; [congruence|].
      destruct (proj2 (M b) (or_introl eq_refl)) as [Ha | Ha]; [congruence|].
      pose proof (cmp_trans _ _ _ (F1 b Ha) (F2 a Hb)) as T.
      rewrite cmp_refl in T. discriminate. }
    subst b. f_equal. apply IH; [exact S1' | exact S2'|].
    intros x. split; intros Hx.
    + destruct (proj1 (M x) (or_intror Hx)) as [Ea | Hin]; [|exact Hin].
      subst x. specialize (F1 a Hx). rewrite cmp_refl in F1. discriminate.
    + destruct (proj2 (M x) (or_intror Hx)) as [Ea | Hin]; [|exact Hin].
      subst x. specialize (F2 a Hx). rewrite cmp_refl in F2. discriminate.
Qed.

End Distinct.

Section Options.

Import Pandas App Spec.

Lemma In_column (col : Row -> option string) (df : DataFrame) (l : string) :
  In l (dropna (map col df)) <-> 0 < label_count col df l.
Proof.
  rewrite In_dropna. split.
  - intros [r [Hin E]]. apply (label_count_pos col df r Hin E).
  - apply label_count_pos_inv.
Qed.

Lemma sorted_options_offers (col : Row -> option string) (df : DataFrame) :
  offers_sorted col (sorted_options col df) df.
Proof.
  exists (sorted (unique (dropna (map col df)))).
  split; [reflexivity|]. split.
  - apply sorted_ascending. apply unique_NoDup.
  - intros l. rewrite sorted_In, unique_In. apply In_column.
Qed.

Lemma date_default_mask (df : DataFrame) (lo hi : Z) (c : Selection) (r : Row) :
  min_date df = Some lo -> max_date df = Some hi -> date_range c = [lo; hi] ->
  In r df -> date_okb c r = has_date r.
Proof.
  intros Hlo Hhi Hc Hin. unfold date_okb, has_date, is_present. rewrite Hc.
  destruct (Date_of_Journey r) as [d|] eqn:E; [|reflexivity].
  assert (Hd : In d (dropna (map Date_of_Journey df)))
    by (apply In_dropna; exists r; auto).
  pose proof (@col_min_le _ lo d Hlo Hd). pose proof (@col_max_ge _ hi d Hhi Hd).
  apply andb_true_iff. rewrite !Z.leb_le. lia.
Qed.

Lemma dim_okb_single (l : string) (cell : option string) :
  l <> "All" -> dim_okb [l] cell = cell_is l cell.
Proof.
  intros N. unfold dim_okb.
  destruct (contains "All" [l]) eqn:E.
  - apply contains_In in E. destruct E as [E | []]. congruence.
  - unfold isin, contains, cell_is.
    destruct cell; [cbn [existsb orb]; rewrite orb_false_r|]; reflexivity.
Qed.

Lemma dim_okb_all (cell : option string) : dim_okb ["All"] cell = true.
Proof. reflexivity. Qed.

Lemma picked_label (col : Row -> option string) (df : DataFrame)
    (c : Selection) (l : string) :
  filtered_df df c
  = Py.Ok (filter (fun r => has_date r && cell_is l (col r)) df) ->
  0 < label_count col df l ->
  selects_own_rows col df c l.
Proof.
  intros E P. split; [exact E|]. split; [exact P|].
  intros D F. apply label_count_pos_inv in P. destruct P as [r [Hin Hr]].
  assert (G : In r (filter (fun r => has_date r && cell_is l (col r)) df)).
  { apply filter_In. split; [exact Hin|].
    rewrite (D r Hin Hr). unfold cell_is. rewrite Hr. apply String.eqb_refl. }
  rewrite F in G. exact G.
Qed.

Lemma offered_label_occurs (col : Row -> option string) (df : DataFrame)
    (l : string) :
  l <> "All" -> In l (sorted_options col df) -> 0 < label_count col df l.
Proof.
  intros N Hin.
  destruct (sorted_options_offers col df) as [labels [E [_ M]]].
  rewrite E in Hin. destruct Hin as [F | F]; [congruence|].
  apply M. exact F.
Qed.

Lemma picked_mask (df : DataFrame) (lo hi : Z) (c : Selection)
    (mask : Row -> bool) :
  date_range c = [lo; hi] ->
  (forall r, In r df -> satisfiesb c r = mask r) ->
  filtered_df df c = Py.Ok (filter mask df).
Proof.
  intros Hc Hm. rewrite filtered_df_mask by (rewrite Hc; simpl; lia).
  f_equal. apply filter_ext_in. exact Hm.
Qed.

End Options.

(** X6.  The hour, departure and arrival option lists are the sentinel
    "All" followed by the labels that occur in the column, each once, in
    ascending order of label; the hour options after "All" are the
    labels of the by-hour table of the unfiltered table, in the same
    order. *)
Theorem sorted_option_lists (df : DataFrame) :
  Spec.offers_sorted Hour_AM_PM (App.hours df) df
  /\ Spec.offers_sorted Departure_Station (App.departures df) df
  /\ Spec.offers_sorted Arrival_Destination (App.arrivals df) df
  /\ App.hours df = "All" :: map fst (App.hour_counts df).
Proof.
  split; [apply sorted_options_offers|].
  split; [apply sorted_options_offers|].
  split; [apply sorted_options_offers|].
  unfold App.hours, App.sorted_options, App.hour_counts. f_equal.
  apply ascending_unique.
  - apply sorted_ascending. apply unique_NoDup.
  - apply groupby_size_ascending.
  - intros l. transitivity (In l (Pandas.dropna (map Hour_AM_PM df))).
    + rewrite sorted_In. apply unique_In.
    + rewrite In_column. split.
      * intros P.
        apply (in_map fst _ (l, Spec.label_count Hour_AM_PM df l)).
        apply groupby_size_In. rewrite occurrences_column. auto.
      * intros F. apply in_map_iff in F. destruct F as [[l' n] [E F]].
        simpl in E. subst l'. apply groupby_size_In in F.
        rewrite occurrences_column in F. lia.
Qed.

(** X7.  The day option list is "All" followed by the day labels that
    occur, each once; they come in order of first appearance, so adding
    rows at the end of the table only adds options at the end. *)
Theorem day_option_list (df more : DataFrame) :
  (exists labels,
     App.days df = "All" :: labels
     /\ NoDup labels
     /\ forall l, In l labels <-> 0 < Spec.label_count Day_of_Week df l)
  /\ exists added, App.days (df ++ more)%list = (App.days df ++ added)%list.
Proof.
  split.
  - exists (Pandas.unique (Pandas.dropna (map Day_of_Week df))).
    split; [reflexivity|]. split; [apply unique_NoDup|].
    intros l. rewrite unique_In. apply In_column.
  - unfold App.days. rewrite map_app.
    assert (D : forall (a b : list (option string)),
               Pandas.dropna (a ++ b) = (Pandas.dropna a ++ Pandas.dropna b)%list).
    { intros a b. induction a as [|[x|] a IH]; simpl; rewrite ?IH; reflexivity. }
    rewrite D.
    destruct (unique_app (Pandas.dropna (map Day_of_Week df))
                         (Pandas.dropna (map Day_of_Week more))) as [added E].
    exists added. rewrite E. reflexivity.
Qed.

(** X8.  With the date range left at its default, from the first to the
    last date of the table, and three multiselects left on "All", picking
    a single offered option other than "All" in the fourth makes the
    whole filter step keep exactly the dated rows holding that label.
    The label occurs in the table; a row is kept as soon as the rows
    holding the label have a date. *)
Theorem offered_option_selects_rows (df : DataFrame) (lo hi : Z) (l : string) :
  App.min_date df = Some lo ->
  App.max_date df = Some hi ->
  l <> "All" ->
  (In l (App.hours df) ->
     Spec.selects_own_rows Hour_AM_PM df
       (mkSelection [lo; hi] [l] ["All"] ["All"] ["All"]) l)
  /\ (In l (App.days df) ->
       Spec.selects_own_rows Day_of_Week df
         (mkSelection [lo; hi] ["All"] [l] ["All"] ["All"]) l)
  /\ (In l (App.departures df) ->
       Spec.selects_own_rows Departure_Station df
         (mkSelection [lo; hi] ["All"] ["All"] [l] ["All"]) l)
  /\ (In l (App.arrivals df) ->
       Spec.selects_own_rows Arrival_Destination df
         (mkSelection [lo; hi] ["All"] ["All"] ["All"] [l]) l).
Proof.
  intros Hlo Hhi N.
  assert (D : forall c r, date_range c = [lo; hi] -> In r df ->
                Spec.date_okb c r = Spec.has_date r).
  { intros c r Hc Hr. apply (@date_default_mask df lo hi c r Hlo Hhi Hc Hr). }
  split; [|split; [|split]]; intros Hin; apply picked_label.
  - apply (@picked_mask df lo hi); [reflexivity|]. intros r Hr.
    unfold Spec.satisfiesb.
    cbn [selected_hours selected_days selected_departures selected_arrivals].
    rewrite D by first [reflexivity | exact Hr].
    rewrite (dim_okb_single _ N), !dim_okb_all, !andb_true_r.
    reflexivity.
  - apply offered_label_occurs; assumption.
  - apply (@picked_mask df lo hi); [reflexivity|]. intros r Hr.
    unfold Spec.satisfiesb.
    cbn [selected_hours selected_days selected_departures selected_arrivals].
    rewrite D by first [reflexivity | exact Hr].
    rewrite (dim_okb_single _ N), !dim_okb_all, !andb_true_r.
    reflexivity.
  - unfold App.days in Hin. destruct Hin as [F | F]; [congruence|].
    apply In_column. apply (proj1 (unique_In _ l)). exact F.
  - apply (@picked_mask df lo hi); [reflexivity|]. intros r Hr.
    unfold Spec.satisfiesb.
    cbn [selected_hours selected_days selected_departures selected_arrivals].
    rewrite D by first [reflexivity | exact Hr].
    rewrite (dim_okb_single _ N), !dim_okb_all, !andb_true_r.
    reflexivity.
  - apply offered_label_occurs; assumption.
  - apply (@picked_mask df lo hi); [reflexivity|]. intros r Hr.
    unfold Spec.satisfiesb.
    cbn [selected_hours selected_days selected_departures selected_arrivals].
    rewrite D by first [reflexivity | exact Hr].
    rewrite (dim_okb_single _ N), !dim_okb_all, !andb_true_r.
    reflexivity.
  - apply offered_label_occurs; assumption.
Qed.

(** In the sample week, picking "9 AM" keeps the two journeys of that
    hour. *)
Lemma offered_option_selects_rows_witness :
  (In "9 AM" (App.hours Sample.week) ->
     Spec.selects_own_rows Hour_AM_PM Sample.week
       (mkSelection [1; 9]%Z ["9 AM"] ["All"] ["All"] ["All"]) "9 AM")
  /\ (In "9 AM" (App.days Sample.week) ->
       Spec.selects_own_rows Day_of_Week Sample.week
         (mkSelection [1; 9]%Z ["All"] ["9 AM"] ["All"] ["All"]) "9 AM")
  /\ (In "9 AM" (App.departures Sample.week) ->
       Spec.selects_own_rows Departure_Station Sample.week
         (mkSelection [1; 9]%Z ["All"] ["All"] ["9 AM"] ["All"]) "9 AM")
  /\ (In "9 AM" (App.arrivals Sample.week) ->
       Spec.selects_own_rows Arrival_Destination Sample.week
         (mkSelection [1; 9]%Z ["All"] ["All"] ["All"] ["9 AM"]) "9 AM").
Proof.
  apply (@offered_option_selects_rows Sample.week 1%Z 9%Z "9 AM");
    [reflexivity | reflexivity | discriminate].
Defined.

(** The same pick, evaluated. *)
Example offered_option_week :
  In "9 AM" (App.hours Sample.week)
  /\ App.filtered_df Sample.week
       (mkSelection [1; 9]%Z ["9 AM"] ["All"] ["All"] ["All"])
     = Py.Ok [Sample.full 3 "9 AM" "Monday" "York" "Leeds" 12;
              Sample.full 9 "9 AM" "Monday" "York" "Hull" 30].
Proof. split; [vm_compute; auto | reflexivity]. Qed.

(** ** The figures under filtering *)

Section FigureBounds.

Import Pandas App Spec.

Lemma count_rows_le (p : Row -> bool) (df : DataFrame) :
  count_rows p df <= List.length df.
Proof.
  unfold count_rows. induction df as [|r df IH]; simpl; [lia|].
  destruct (p r); simpl; lia.
Qed.

Lemma count_rows_Subseq (p : Row -> bool) (a b : DataFrame) :
  Subseq a b -> count_rows p a <= count_rows p b.
Proof.
  unfold count_rows. induction 1 as [|x l1 l2 S IH|x l1 l2 S IH]; simpl.
  - lia.
  - destruct (p x); simpl; lia.
  - destruct (p x); simpl; lia.
Qed.

Lemma Subseq_length {A} (a b : list A) : Subseq a b -> List.length a <= List.length b.
Proof. induction 1; simpl; lia. Qed.

Lemma Subseq_In {A} (a b : list A) (x : A) : Subseq a b -> In x a -> In x b.
Proof.
  induction 1 as [|y l1 l2 S IH|y l1 l2 S IH]; simpl; intros H.
  - exact H.
  - right. apply IH. exact H.
  - destruct H as [E | H]; [left; exact E | right; apply IH; exact H].
Qed.

Lemma exact_sum_nonneg (df : DataFrame) :
  prices_nonneg df -> (0 <= exact_sum df)%Z.
Proof.
  unfold prices_nonneg. induction df as [|r df IH]; simpl; intros H; [lia|].
  pose proof (H r (or_introl eq_refl)).
  assert (0 <= exact_sum df)%Z by (apply IH; intros r' F; apply H; right; exact F).
  lia.
Qed.

Lemma exact_sum_Subseq (a b : DataFrame) :
  Subseq a b -> prices_nonneg b -> (exact_sum a <= exact_sum b)%Z.
Proof.
  unfold prices_nonneg.
  induction 1 as [|x l1 l2 S IH|x l1 l2 S IH]; simpl; intros H.
  - lia.
  - pose proof (H x (or_introl eq_refl)).
    assert (exact_sum l1 <= exact_sum l2)%Z
      by (apply IH; intros r F; apply H; right; exact F).
    lia.
  - assert (exact_sum l1 <= exact_sum l2)%Z
      by (apply IH; intros r F; apply H; right; exact F).
    lia.
Qed.

Lemma prices_nonneg_Subseq (a b : DataFrame) :
  Subseq a b -> prices_nonneg b -> prices_nonneg a.
Proof.
  intros S H r Hin. apply H. apply (@Subseq_In _ a b r S Hin).
Qed.

Lemma int64_table_Subseq (a b : DataFrame) :
  Subseq a b -> int64_table b -> int64_table a.
Proof.
  intros S T r Hin. apply T. apply (@Subseq_In _ a b r S Hin).
Qed.

Lemma revenue_int64 {np : Numpy} (df : DataFrame) :
  int64_table df -> totalRevenue (kpis df) = wrap64 (exact_sum df).
Proof.
  intros T. unfold kpis, revenue_figure. cbn [totalRevenue].
  rewrite (total_revenue_int64 T). reflexivity.
Qed.

End FigureBounds.

(** X9.  The delayed, cancelled and refund figures never exceed the
    number of journeys. *)
Theorem figures_within_journeys {np : Pandas.Numpy} (df : DataFrame) :
  App.totalDelayed (App.kpis df) <= App.totalJourneys (App.kpis df)
  /\ App.totalCancelled (App.kpis df) <= App.totalJourneys (App.kpis df)
  /\ App.totalRefundRequests (App.kpis df) <= App.totalJourneys (App.kpis df).
Proof.
  unfold App.kpis. cbn [App.totalJourneys App.totalDelayed App.totalCancelled
                        App.totalRefundRequests].
  unfold App.total_delayed, App.total_cancelled, App.total_journeys.
  rewrite !sum_bool_count, total_refund_count.
  repeat split; apply count_rows_le.
Qed.

(** X10.  Filtering never raises a figure: the journeys, delayed,
    cancelled and refund figures of the filtered table are at most those
    of the whole table, and so is the revenue figure on an int64 price
    column without a negative price whose sum fits in 64 bits. *)
Theorem filtering_never_raises_figures {np : Pandas.Numpy}
    (df : DataFrame) (c : Selection) :
  List.length (date_range c) <> 1 ->
  exists out,
    App.filtered_df df c = Py.Ok out
    /\ App.totalJourneys (App.kpis out) <= App.totalJourneys (App.kpis df)
    /\ App.totalDelayed (App.kpis out) <= App.totalDelayed (App.kpis df)
    /\ App.totalCancelled (App.kpis out) <= App.totalCancelled (App.kpis df)
    /\ App.totalRefundRequests (App.kpis out)
       <= App.totalRefundRequests (App.kpis df)
    /\ (Spec.int64_table df -> Spec.prices_nonneg df ->
        Spec.in_int64 (Spec.exact_sum df) ->
        (App.totalRevenue (App.kpis out) <= App.totalRevenue (App.kpis df))%Z).
Proof.
  intros H. exists (filter (Spec.satisfiesb c) df).
  split; [apply filtered_df_mask; exact H|].
  pose proof (Subseq_filter (Spec.satisfiesb c) df) as S.
  split; [|split; [|split; [|split]]].
  - apply Subseq_length; exact S.
  - unfold App.kpis. cbn [App.totalDelayed]. unfold App.total_delayed.
    rewrite !sum_bool_count. apply count_rows_Subseq; exact S.
  - unfold App.kpis. cbn [App.totalCancelled]. unfold App.total_cancelled.
    rewrite !sum_bool_count. apply count_rows_Subseq; exact S.
  - unfold App.kpis. cbn [App.totalRefundRequests].
    rewrite !total_refund_count. apply count_rows_Subseq; exact S.
  - intros T P R.
    pose proof (@exact_sum_Subseq _ df S P) as Le.
    pose proof (@exact_sum_nonneg _ (@prices_nonneg_Subseq _ df S P)) as Ge.
    rewrite (revenue_int64 T), (revenue_int64 (@int64_table_Subseq _ df S T)).
    rewrite (wrap64_small R).
    rewrite wrap64_small; [exact Le|].
    unfold Spec.in_int64 in *. lia.
Qed.

(** The sample week narrowed to the first five days and the hour "9 AM",
    with float64 sums added from left to right. *)
Lemma filtering_never_raises_figures_witness :
  exists out,
    App.filtered_df Sample.week (mkSelection [1; 5]%Z ["9 AM"] ["All"] ["All"] ["All"])
    = Py.Ok out
    /\ App.totalJourneys (@App.kpis Sample.left_to_right out)
       <= App.totalJourneys (@App.kpis Sample.left_to_right Sample.week)
    /\ App.totalDelayed (@App.kpis Sample.left_to_right out)
       <= App.totalDelayed (@App.kpis Sample.left_to_right Sample.week)
    /\ App.totalCancelled (@App.kpis Sample.left_to_right out)
       <= App.totalCancelled (@App.kpis Sample.left_to_right Sample.week)
    /\ App.totalRefundRequests (@App.kpis Sample.left_to_right out)
       <= App.totalRefundRequests (@App.kpis Sample.left_to_right Sample.week)
    /\ (Spec.int64_table Sample.week -> Spec.prices_nonneg Sample.week ->
        Spec.in_int64 (Spec.exact_sum Sample.week) ->
        (App.totalRevenue (@App.kpis Sample.left_to_right out)
         <= App.totalRevenue (@App.kpis Sample.left_to_right Sample.week))%Z).
Proof.
  apply (@filtering_never_raises_figures Sample.left_to_right Sample.week
           (mkSelection [1; 5]%Z ["9 AM"] ["All"] ["All"] ["All"])).
  simpl. lia.
Defined.

(** The revenue of the sample week, 49, and of its narrowing, 12. *)
Example filtering_week_revenue :
  forall np : Pandas.Numpy,
    Spec.int64_table Sample.week
    /\ Spec.prices_nonneg Sample.week
    /\ Spec.exact_sum Sample.week = 49%Z
    /\ App.totalRevenue (@App.kpis np Sample.week) = 49%Z
    /\ App.totalRevenue
         (@App.kpis np [Sample.full 3 "9 AM" "Monday" "York" "Leeds" 12]) = 12%Z.
Proof.
  intros np.
  split.
  { intros r [<- | [<- | [<- | []]]]; eexists; (split; [reflexivity|]);
      unfold Spec.in_int64; lia. }
  split.
  { intros r [<- | [<- | [<- | []]]]; cbn; lia. }
  split; [reflexivity|]. split; reflexivity.
Qed.

(** ** Totals of the tables *)

Section Totals.

Import Pandas App Spec.

Lemma total_count_upsert {K X} {C : Compare K} (k : K) (x : X) (acc : Series K nat) :
  total_count (upsert k (fun o => count_step o x) acc) = S (total_count acc).
Proof.
  induction acc as [|[k0 n] acc IH]; simpl; [reflexivity|].
  destruct (cmp k k0); simpl; [reflexivity | reflexivity | rewrite IH; lia].
Qed.

Lemma total_count_fold_upsert {K X} {C : Compare K} (rows : list (K * X))
    (acc : Series K nat) :
  total_count
    (fold_left (fun a kx => upsert (fst kx) (fun o => count_step o (snd kx)) a)
               rows acc)
  = total_count acc + List.length rows.
Proof.
  revert acc. induction rows as [|kx rows IH]; intros acc; simpl; [lia|].
  rewrite IH, total_count_upsert. lia.
Qed.

Lemma groupby_size_total {K} {C : Compare K} (col : list (option K)) :
  total_count (groupby_size col) = List.length (dropna col).
Proof.
  unfold groupby_size, groupby_agg.
  rewrite total_count_fold_upsert, length_map. reflexivity.
Qed.

Lemma total_count_firstn {K} (n : nat) (s : Series K nat) :
  total_count (firstn n s) <= total_count s.
Proof.
  revert n. induction s as [|e s IH]; intros [|n]; simpl; try lia.
  specialize (IH n). lia.
Qed.

Lemma count_rows_and_le (p q : Row -> bool) (df : DataFrame) :
  count_rows (fun r => p r && q r) df <= count_rows p df.
Proof.
  unfold count_rows. induction df as [|r df IH]; simpl; [lia|].
  destruct (p r), (q r); simpl; lia.
Qed.

Lemma count_rows_ext_in (p q : Row -> bool) (df : DataFrame) :
  (forall r, In r df -> p r = q r) -> count_rows p df = count_rows q df.
Proof.
  intros H. unfold count_rows. rewrite (filter_ext_in p q df H). reflexivity.
Qed.

Lemma count_rows_or (p q : Row -> bool) (df : DataFrame) :
  (forall r, p r = true -> q r = false) ->
  count_rows (fun r => p r || q r) df = count_rows p df + count_rows q df.
Proof.
  intros H. unfold count_rows. induction df as [|r df IH]; simpl; [reflexivity|].
  destruct (p r) eqn:Ep; simpl.
  - rewrite (H r Ep). simpl. rewrite IH. reflexivity.
  - destruct (q r); simpl; rewrite IH; lia.
Qed.

(** The counts of a list of distinct labels add up to the rows holding
    one of them. *)
Lemma labels_total (col : Row -> option string) (df : DataFrame) (ls : list string) :
  NoDup ls ->
  sum_nat (map (fun l => match label_count col df l with
                         | 0 => None
                         | S n => Some (S n)
                         end) ls)
  = count_rows (fun r => isin ls (col r)) df.
Proof.
  induction ls as [|a ls IH]; intros ND.
  - unfold count_rows. rewrite filter_none; [reflexivity|].
    intros r _. destruct (col r); reflexivity.
  - inversion ND as [|? ? N ND']; subst.
    rewrite (count_rows_ext_in
               (fun r => isin (a :: ls) (col r))
               (fun r => cell_is a (col r) || isin ls (col r)) df).
    + rewrite count_rows_or.
      * rewrite <- (IH ND'). fold (label_count col df a).
        unfold sum_nat. cbn [map].
        destruct (label_count col df a); reflexivity.
      * intros r. unfold cell_is, isin. destruct (col r) as [s|]; [|discriminate].
        intros E. apply String.eqb_eq in E. subst s.
        destruct (contains a ls) eqn:F; [|reflexivity].
        apply contains_In in F. contradiction.
    + intros r _. unfold isin, contains, cell_is.
      destruct (col r); reflexivity.
Qed.

Lemma eqk_Z (a b : Z) : eqk a b = (b =? a)%Z.
Proof.
  destruct (b =? a)%Z eqn:E.
  - apply Z.eqb_eq in E. subst. apply eqk_refl.
  - apply Z.eqb_neq in E. apply eqk_neq. congruence.
Qed.

Lemma occurrences_month (df : DataFrame) (m : Z) :
  occurrences m (dropna (map Month df)) = month_count df m.
Proof.
  unfold occurrences, month_count, count_rows.
  induction df as [|r df IH]; simpl; [reflexivity|].
  destruct (Month r) as [m'|]; simpl; [|exact IH].
  rewrite eqk_Z. destruct (m' =? m)%Z; simpl; rewrite IH; reflexivity.
Qed.

End Totals.

(** X12.  The by-hour counts add up to the rows that have an hour label:
    a row without one is in no count, and when no hour is missing the
    counts add up to the journeys figure. *)
Theorem hour_counts_total {np : Pandas.Numpy} (df : DataFrame) :
  Spec.total_count (App.hour_counts df)
  = Spec.count_rows (fun r => Spec.is_present (Hour_AM_PM r)) df
  /\ Spec.total_count (App.hour_counts df) <= App.totalJourneys (App.kpis df)
  /\ ((forall r, In r df -> Spec.is_present (Hour_AM_PM r) = true) ->
      Spec.total_count (App.hour_counts df) = App.totalJourneys (App.kpis df)).
Proof.
  assert (E : Spec.total_count (App.hour_counts df)
              = Spec.count_rows (fun r => Spec.is_present (Hour_AM_PM r)) df).
  { unfold App.hour_counts. rewrite groupby_size_total.
    apply length_dropna_column. }
  rewrite E. split; [reflexivity|]. split; [apply count_rows_le|].
  intros Hall. unfold Spec.count_rows. rewrite filter_all by exact Hall.
  reflexivity.
Qed.

(** X13.  The by-month table lists exactly the months that occur, each
    once with its number of rows, in ascending order of month; its counts
    add up to the rows that have a month. *)
Theorem monthly_counts_spec (df : DataFrame) :
  Spec.ascending (map fst (App.monthly_counts df))
  /\ (forall m n, In (m, n) (App.monthly_counts df) <->
        0 < n /\ n = Spec.month_count df m)
  /\ Spec.total_count (App.monthly_counts df)
     = Spec.count_rows (fun r => Spec.is_present (Month r)) df.
Proof.
  unfold App.monthly_counts.
  split; [apply groupby_size_ascending|]. split.
  - intros m n. rewrite groupby_size_In, occurrences_month. reflexivity.
  - rewrite groupby_size_total. apply length_dropna_column.
Qed.

(** X14.  The by-day table shows only the seven weekday names: its values
    add up to the rows whose day label is one of the seven, so a row with
    any other day label, or none, is in no bar. *)
Theorem day_counts_total (df : DataFrame) :
  Spec.total_present (App.day_counts df)
  = Spec.count_rows (fun r => Pandas.isin App.weekdays (Day_of_Week r)) df.
Proof.
  unfold Spec.total_present, App.day_counts, Pandas.reindex.
  rewrite map_map. cbn [snd].
  rewrite <- labels_total.
  - f_equal. apply map_ext. intros d.
    rewrite at_label_value_counts, occurrences_column. reflexivity.
  - unfold App.weekdays.
    repeat (constructor; [simpl; intros F;
                          repeat (destruct F as [F | F]; [discriminate F|]);
                          exact F|]).
    constructor.
Qed.

(** X15.  The delay-reason counts add up to at most the delayed figure,
    and to exactly that figure when every delayed row has a reason; the
    same holds for the cancellation reasons and the cancelled figure. *)
Theorem reasons_within_figures {np : Pandas.Numpy} (df : DataFrame) :
  (Spec.total_count (App.delayed_reasons df) <= App.totalDelayed (App.kpis df)
   /\ ((forall r, In r df -> Is_Delayed r = true ->
          Spec.is_present (Reason_for_Delay r) = true) ->
       Spec.total_count (App.delayed_reasons df) = App.totalDelayed (App.kpis df)))
  /\
  (Spec.total_count (App.cancel_reasons df) <= App.totalCancelled (App.kpis df)
   /\ ((forall r, In r df -> Is_Cancelled r = true ->
          Spec.is_present (Reason_for_Delay r) = true) ->
       Spec.total_count (App.cancel_reasons df) = App.totalCancelled (App.kpis df))).
Proof.
  assert (G : forall flag : Row -> bool,
             Spec.total_count
               (Pandas.value_counts (map Reason_for_Delay (filter flag df)))
             <= Spec.count_rows flag df
             /\ ((forall r, In r df -> flag r = true ->
                    Spec.is_present (Reason_for_Delay r) = true) ->
                 Spec.total_count
                   (Pandas.value_counts (map Reason_for_Delay (filter flag df)))
                 = Spec.count_rows flag df)).
  { intros flag.
    destruct (reasons_of_flagged flag df) as [_ [_ [_ T]]]. rewrite T.
    split; [apply count_rows_and_le|].
    intros Hall. apply count_rows_ext_in. intros r Hin.
    destruct (flag r) eqn:E; [|reflexivity].
    rewrite (Hall r Hin E). reflexivity. }
  unfold App.kpis. cbn [App.totalDelayed App.totalCancelled].
  unfold App.total_delayed, App.total_cancelled, App.delayed_reasons,
    App.cancel_reasons.
  rewrite !sum_bool_count, delayed_flag, cancelled_flag.
  split; apply G.
Qed.

(** X16.  The counts of the popular-routes table add up to at most the
    rows that have a route, hence to at most the journeys figure; when
    the table has fewer than 10 entries they add up to exactly the rows
    that have a route. *)
Theorem popular_routes_total {np : Pandas.Numpy} (df : DataFrame) :
  Spec.total_count (App.popular_routes df)
  <= Spec.count_rows (fun r => Spec.is_present (Route r)) df
  /\ Spec.total_count (App.popular_routes df) <= App.totalJourneys (App.kpis df)
  /\ (List.length (App.popular_routes df) < 10 ->
      Spec.total_count (App.popular_routes df)
      = Spec.count_rows (fun r => Spec.is_present (Route r)) df).
Proof.
  unfold App.popular_routes, Pandas.head.
  assert (T : Spec.total_count (Pandas.value_counts (map Route df))
              = Spec.count_rows (fun r => Spec.is_present (Route r)) df).
  { rewrite value_counts_total. apply length_dropna_column. }
  pose proof (total_count_firstn 10 (Pandas.value_counts (map Route df))) as F.
  split; [lia|]. split.
  - pose proof (count_rows_le (fun r => Spec.is_present (Route r)) df) as B.
    unfold App.kpis. cbn [App.totalJourneys]. unfold App.total_journeys. lia.
  - rewrite length_firstn. intros Hlen.
    rewrite firstn_all2 by lia. exact T.
Qed.

(** ** The bar series of the revenue chart *)

Section Traces.

Import Pandas App Spec.




End Traces.


(** The bars of three int64 tickets: two series, the pair without a
    ticket at 0.0. *)
Example fig_revenue_sample :
  forall np : Pandas.Numpy,
    App.fig_revenue
      (@App.revenue_pivot np
         [Sample.ticket (Some "Advance") (Some "Standard") 5;
          Sample.ticket (Some "Anytime") (Some "First Class") 7;
          Sample.ticket (Some "Advance") (Some "Standard") 1])
    = Some [App.mkBar ["Advance"; "Anytime"]
                      [Pandas.VFloat 0%float; Pandas.VFloat 7%float]
                      "First Class";
            App.mkBar ["Advance"; "Anytime"]
                      [Pandas.VFloat 6%float; Pandas.VFloat 0%float]
                      "Standard"].
Proof. intros np. vm_compute. reflexivity. Qed.

(** ** The texts of the metrics *)

Section MetricTexts.

Import App Spec.

Lemma decimal_plain (d : Decimal.uint) :
  Forall (fun c => plain c = true)
         (list_ascii_of_string (DecimalString.NilEmpty.string_of_uint d)).
Proof.
  induction d; simpl; constructor; try reflexivity; assumption.
Qed.

Lemma plain_kept (l : list ascii) :
  Forall (fun c => plain c = true) l ->
  filter (fun c => negb (is_mark c)) l = l.
Proof.
  intros F. apply filter_all. rewrite Forall_forall in F.
  intros c Hc. specialize (F c Hc). unfold plain in F.
  apply andb_true_iff in F. tauto.
Qed.

Lemma plain_no_comma (l : list ascii) :
  Forall (fun c => plain c = true) l ->
  filter (fun c => Ascii.eqb c ","%char) l = [].
Proof.
  intros F. apply filter_none. rewrite Forall_forall in F.
  intros c Hc. specialize (F c Hc). unfold plain, is_mark in F.
  destruct (Ascii.eqb c ","%char); [discriminate F | reflexivity].
Qed.

(** Grouping, by induction on a bound of the length. *)
Lemma group3_bounded (n : nat) (l : list ascii) :
  List.length l <= n ->
  Forall (fun c => plain c = true) l ->
  filter (fun c => negb (is_mark c)) (Py.group3 l) = l
  /\ List.length (filter (fun c => Ascii.eqb c ","%char) (Py.group3 l))
     = (List.length l - 1) / 3.
Proof.
  revert l. induction n as [|n IH]; intros l Hlen F.
  - destruct l; [split; reflexivity | simpl in Hlen; lia].
  - destruct l as [|a [|b [|c [|d rest]]]].
    + split; reflexivity.
    + simpl Py.group3. rewrite plain_kept, plain_no_comma by exact F.
      split; reflexivity.
    + simpl Py.group3. rewrite plain_kept, plain_no_comma by exact F.
      split; reflexivity.
    + simpl Py.group3. rewrite plain_kept, plain_no_comma by exact F.
      split; reflexivity.
    + change (Py.group3 (a :: b :: c :: d :: rest))
        with (a :: b :: c :: ","%char :: Py.group3 (d :: rest)).
      inversion F as [|? ? Fa F1]; subst. inversion F1 as [|? ? Fb F2]; subst.
      inversion F2 as [|? ? Fc F3]; subst.
      destruct (IH (d :: rest)) as [K N]; [simpl in *; lia | exact F3|].
      assert (P : forall x, plain x = true ->
                    negb (is_mark x) = true /\ Ascii.eqb x ","%char = false).
      { intros x Hx. unfold plain, is_mark in *.
        destruct (Ascii.eqb x ","%char); [discriminate Hx|].
        apply andb_true_iff in Hx. tauto. }
      destruct (P a Fa) as [Pa Ca]. destruct (P b Fb) as [Pb Cb].
      destruct (P c Fc) as [Pc Cc].
      assert (FC : forall (p : ascii -> bool) x l,
                 filter p (x :: l) = if p x then x :: filter p l else filter p l)
        by reflexivity.
      split.
      * rewrite !FC, Pa, Pb, Pc.
        change (negb (is_mark ","%char)) with false. cbv iota.
        rewrite K. reflexivity.
      * rewrite !FC, Ca, Cb, Cc.
        change (Ascii.eqb ","%char ","%char) with true. cbv iota.
        cbn [List.length] in *. rewrite N.
        replace (S (S (S (S (List.length rest)))) - 1)
          with (1 * 3 + (S (List.length rest) - 1)) by lia.
        rewrite Nat.div_add_l by lia. lia.
Qed.

Lemma to_uint_nonnil (n : N) : N.to_uint n <> Decimal.Nil.
Proof.
  destruct n as [|p]; simpl.
  - discriminate.
  - apply DecimalPos.Unsigned.to_uint_nonnil.
Qed.

Lemma read_N_decimal (n : N) :
  read_N (DecimalString.NilEmpty.string_of_uint (N.to_uint n)) = Some n.
Proof.
  unfold read_N. rewrite DecimalString.NilEmpty.usu. simpl.
  rewrite DecimalN.Unsigned.of_to. reflexivity.
Qed.

Lemma read_int_decimal (n : N) :
  read_int (DecimalString.NilEmpty.string_of_uint (N.to_uint n)) = Some (Z.of_N n).
Proof.
  pose proof (read_N_decimal n) as R. pose proof (to_uint_nonnil n) as NN.
  pose proof (decimal_plain (N.to_uint n)) as F.
  destruct (DecimalString.NilEmpty.string_of_uint (N.to_uint n)) as [|c rest] eqn:E.
  - destruct (N.to_uint n); try discriminate E. contradiction.
  - unfold read_int. simpl in F. inversion F as [|? ? Fc _]; subst.
    unfold plain in Fc. apply andb_true_iff in Fc. destruct Fc as [_ Fc].
    destruct (Ascii.eqb c "-"%char); [discriminate Fc|].
    rewrite R. reflexivity.
Qed.

(** The text of a figure without its marks is its signed numeral. *)
Lemma strip_format_comma (z : Z) :
  strip_marks (Py.format_comma z)
  = let numeral := DecimalString.NilEmpty.string_of_uint (N.to_uint (Z.abs_N z)) in
    if (z <? 0)%Z then String "-" numeral else numeral.
Proof.
  assert (B : strip_marks
                (string_of_list_ascii
                   (List.rev (Py.group3 (List.rev (Py.decimal (Z.abs_N z))))))
              = DecimalString.NilEmpty.string_of_uint (N.to_uint (Z.abs_N z))).
  { unfold strip_marks. rewrite list_ascii_of_string_of_list_ascii, filter_rev.
    destruct (@group3_bounded _ (List.rev (Py.decimal (Z.abs_N z))) (le_n _)) as [K _].
    - apply Forall_rev. apply decimal_plain.
    - rewrite K, rev_involutive. unfold Py.decimal.
      apply string_of_list_ascii_of_string. }
  unfold Py.format_comma. cbv zeta. destruct (z <? 0)%Z.
  - unfold strip_marks in *. cbn [list_ascii_of_string filter].
    change (negb (is_mark "-"%char)) with true. cbn [string_of_list_ascii].
    rewrite B. reflexivity.
  - exact B.
Qed.

Lemma format_comma_read_back (z : Z) :
  read_metric (Py.format_comma z) = Some z.
Proof.
  unfold read_metric. rewrite strip_format_comma. cbv zeta.
  destruct (z <? 0)%Z eqn:E.
  - apply Z.ltb_lt in E. unfold read_int.
    change (Ascii.eqb "-"%char "-"%char) with true. cbv iota.
    rewrite read_N_decimal. simpl. f_equal. rewrite N2Z.inj_abs_N. lia.
  - apply Z.ltb_ge in E. rewrite read_int_decimal. f_equal.
    rewrite N2Z.inj_abs_N. lia.
Qed.

Lemma dollar_read_back (z : Z) :
  read_metric (String "$" (Py.format_comma z)) = Some z.
Proof.
  pose proof (format_comma_read_back z) as R.
  unfold read_metric, strip_marks in *. cbn [list_ascii_of_string filter].
  change (negb (is_mark "$"%char)) with false. cbv iota. exact R.
Qed.

Lemma format_comma_count (z : Z) :
  count_commas (Py.format_comma z)
  = (List.length (Py.decimal (Z.abs_N z)) - 1) / 3.
Proof.
  assert (B : count_commas
                (string_of_list_ascii
                   (List.rev (Py.group3 (List.rev (Py.decimal (Z.abs_N z))))))
              = (List.length (Py.decimal (Z.abs_N z)) - 1) / 3).
  { unfold count_commas. rewrite list_ascii_of_string_of_list_ascii, filter_rev,
      length_rev.
    destruct (@group3_bounded _ (List.rev (Py.decimal (Z.abs_N z))) (le_n _)) as [_ N].
    - apply Forall_rev. apply decimal_plain.
    - rewrite N, length_rev. reflexivity. }
  unfold Py.format_comma. cbv zeta. destruct (z <? 0)%Z; [|exact B].
  unfold count_commas in *. cbn [list_ascii_of_string filter].
  change (Ascii.eqb "-"%char ","%char) with false. cbv iota. exact B.
Qed.

End MetricTexts.

(** X19.  The texts of the journeys, revenue, delayed and cancelled
    metrics read back to the figures: with the commas and the currency
    sign removed, each text is the decimal numeral of its figure. *)
Theorem metric_texts_read_back (k : App.KPIs) :
  map (fun labelled => (fst labelled, Spec.read_metric (snd labelled)))
      (App.metric_texts k)
  = [("Total Journeys", Some (Z.of_nat (App.totalJourneys k)));
     ("Total Revenue", Some (App.totalRevenue k));
     ("Delayed Journeys", Some (Z.of_nat (App.totalDelayed k)));
     ("Cancelled Journeys", Some (Z.of_nat (App.totalCancelled k)))].
Proof.
  unfold App.metric_texts. cbn [map fst snd].
  rewrite !format_comma_read_back, dollar_read_back. reflexivity.
Qed.

(** X20.  A formatted figure has one comma for every full group of three
    digits before the last: with [n] digits it has (n - 1) / 3 commas, so
    none below one thousand. *)
Theorem format_comma_commas (z : Z) :
  Spec.count_commas (Py.format_comma z)
  = (List.length (Py.decimal (Z.abs_N z)) - 1) / 3
  /\ ((-1000 < z < 1000)%Z -> Spec.count_commas (Py.format_comma z) = 0).
Proof.
  split; [apply format_comma_count|].
  intros B. rewrite format_comma_count.
  assert (L : List.length (Py.decimal (Z.abs_N z)) <= 3).
  { assert (S : forallb (fun m => List.length (Py.decimal (N.of_nat m)) <=? 3)
                        (seq 0 1000) = true) by (vm_compute; reflexivity).
    rewrite forallb_forall in S.
    specialize (S (N.to_nat (Z.abs_N z))). rewrite N2Nat.id in S.
    apply Nat.leb_le. apply S. apply in_seq. lia. }
  apply Nat.div_small. lia.
Qed.
